(** * Measurement core of the YOLO benchmarking harness

    A shallow embedding of [src/utils/fps.py], [src/utils/monitor.py],
    [src/utils/logger.py], [src/run_yolov8.py] and [src/compare_results.py].

    Conventions of the embedding:
    - a Python [float] is an exact rational ([Q]); rounding is not modelled,
      so every numeric statement is about the idealised arithmetic;
    - the wall clock ([time.time()], [datetime.now()]) is an explicit
      argument of each operation that reads it;
    - an operation that can raise returns in the error monad [py];
    - an object's fields are a record and a method takes the record and
      returns the updated one. *)

From Stdlib Require Import String Ascii.
From Stdlib Require Import ZArith QArith Qabs Bool Lia Arith List.
Import ListNotations.

Set Implicit Arguments.

(** ** Python values and exceptions *)

Inductive pyexn : Set :=
| ZeroDivisionError
| ValueError
| IndexError
| FileNotFoundError
| TimeoutExpired.

Inductive py (A : Type) : Type :=
| Ret (a : A)
| Raise (e : pyexn).

Arguments Ret {A} a.
Arguments Raise {A} e.

Definition bind {A B : Type} (m : py A) (k : A -> py B) : py B :=
  match m with
  | Ret a => k a
  | Raise e => Raise e
  end.

Notation "x <- m ;; k" := (bind m (fun x => k))
  (at level 61, m at next level, right associativity).

(** The value of an expression of type [Optional[float]]. *)
Inductive pyval : Type :=
| PyNone
| PyFloat (q : Q).

(** Two outcomes agree when both raise the same exception or both return
    equal rationals. *)
Definition py_Qeq (a b : py Q) : Prop :=
  match a, b with
  | Ret x, Ret y => x == y
  | Raise e, Raise e' => e = e'
  | _, _ => False
  end.

Definition Qltb (a b : Q) : bool := negb (Qle_bool b a).

(** [a / b] on floats: raises on a zero divisor. *)
Definition truediv (a b : Q) : py Q :=
  if Qeq_bool b 0 then Raise ZeroDivisionError else Ret (a / b).

(** [sum(l)], [len(l)] as a float, and [min]/[max], which keep the first
    extremal element and raise on an empty sequence. *)
Definition sum (l : list Q) : Q := fold_left Qplus l 0.

Definition len (l : list Q) : Q := inject_Z (Z.of_nat (length l)).

Definition py_min (l : list Q) : py Q :=
  match l with
  | [] => Raise ValueError
  | x :: r => Ret (fold_left (fun m y => if Qltb y m then y else m) r x)
  end.

Definition py_max (l : list Q) : py Q :=
  match l with
  | [] => Raise ValueError
  | x :: r => Ret (fold_left (fun m y => if Qltb m y then y else m) r x)
  end.

(** [collections.deque(maxlen=n).append(x)]: the element enters on the
    right and, when the bound is exceeded, the leftmost one leaves. *)
Definition deque_append (maxlen : Z) (x : Q) (d : list Q) : list Q :=
  if (maxlen =? 0)%Z then d
  else
    let d' := d ++ [x] in
    if (maxlen <? Z.of_nat (length d'))%Z then tl d' else d'.

(** The last [n] elements of a list. *)
Definition lastn {A : Type} (n : nat) (l : list A) : list A :=
  skipn (length l - n) l.

(** ** fps.py: FPSCalculator *)

Module FPSCalculator.

Record state : Type := mk {
  window_size : Z;
  frame_times : list Q;
  frame_count : Z;
  start_time : option Q;
  last_frame_time : option Q
}.

(** [deque(maxlen=window_size)] rejects a negative bound. *)
Definition __init__ (window_size : Z) : py state :=
  if (window_size <? 0)%Z then Raise ValueError
  else Ret (mk window_size [] 0 None None).

Definition start (now : Q) (self : state) : state :=
  mk (window_size self) [] 0 (Some now) (Some now).

Definition get_fps (self : state) : py Q :=
  match frame_times self with
  | [] => Ret 0
  | _ :: _ =>
      avg_frame_time <- truediv (sum (frame_times self)) (len (frame_times self)) ;;
      if Qltb 0 avg_frame_time then truediv 1 avg_frame_time else Ret 0
  end.

Definition update (now : Q) (self : state) : py (state * Q) :=
  let frame_times' :=
    match last_frame_time self with
    | Some last => deque_append (window_size self) (now - last) (frame_times self)
    | None => frame_times self
    end in
  let self' :=
    mk (window_size self) frame_times' (frame_count self + 1)
       (start_time self) (Some now) in
  fps <- get_fps self' ;;
  Ret (self', fps).

Definition get_average_fps (now : Q) (self : state) : py Q :=
  match start_time self with
  | None => Ret 0
  | Some t0 =>
      if (frame_count self =? 0)%Z then Ret 0
      else
        let elapsed := now - t0 in
        if Qltb 0 elapsed then truediv (inject_Z (frame_count self)) elapsed
        else Ret 0
  end.

Definition get_frame_count (self : state) : Z := frame_count self.

Definition get_elapsed_time (now : Q) (self : state) : Q :=
  match start_time self with
  | None => 0
  | Some t0 => now - t0
  end.

Definition reset (self : state) : state :=
  mk (window_size self) [] 0 None None.

(** One [update()] per clock reading, in order. *)
Fixpoint updates (clock : list Q) (self : state) : py state :=
  match clock with
  | [] => Ret self
  | now :: clock' =>
      r <- update now self ;;
      updates clock' (fst r)
  end.

(** The frame intervals seen by [update()] after a timestamp [last]. *)
Fixpoint intervals (last : Q) (clock : list Q) : list Q :=
  match clock with
  | [] => []
  | now :: clock' => (now - last) :: intervals now clock'
  end.

End FPSCalculator.

(** ** fps.py: InferenceTimer *)

Module InferenceTimer.

Record state : Type := mk {
  start_time : option Q;
  times : list Q
}.

Definition __init__ : state := mk None [].

Definition start (now : Q) (self : state) : state :=
  mk (Some now) (times self).

Definition stop (now : Q) (self : state) : state * Q :=
  match start_time self with
  | None => (self, 0)
  | Some t0 =>
      let elapsed := now - t0 in
      (mk None (times self ++ [elapsed]), elapsed)
  end.

Definition get_last_time (self : state) : pyval :=
  match times self with
  | [] => PyNone
  | _ :: _ => PyFloat (last (times self) 0)
  end.

Definition get_average (self : state) : py pyval :=
  match times self with
  | [] => Ret (PyFloat 0)
  | _ :: _ =>
      a <- truediv (sum (times self)) (len (times self)) ;;
      Ret (PyFloat a)
  end.

Definition get_min (self : state) : py pyval :=
  match times self with
  | [] => Ret PyNone
  | _ :: _ => m <- py_min (times self) ;; Ret (PyFloat m)
  end.

Definition get_max (self : state) : py pyval :=
  match times self with
  | [] => Ret PyNone
  | _ :: _ => m <- py_max (times self) ;; Ret (PyFloat m)
  end.

Definition get_count (self : state) : nat := length (times self).

Definition reset (self : state) : state := mk None [].

(** The calls a driver can make on a timer, each with the clock reading
    it observes. *)
Inductive call : Type :=
| Start (now : Q)
| Stop (now : Q)
| Reset.

Definition step (self : state) (c : call) : state :=
  match c with
  | Start now => start now self
  | Stop now => fst (stop now self)
  | Reset => reset self
  end.

Definition run (calls : list call) (self : state) : state :=
  fold_left step calls self.

Definition is_start (c : call) : bool :=
  match c with Start _ => true | _ => false end.

Definition starts (calls : list call) : nat :=
  length (filter is_start calls).

End InferenceTimer.

(** ** Strings as Python uses them *)

(** [c.isspace()] on the ASCII range. *)
Definition isspace (c : ascii) : bool :=
  let n := nat_of_ascii c in
  ((9 <=? n) && (n <=? 13)) || ((28 <=? n) && (n <=? 32)).

Fixpoint lstrip (s : string) : string :=
  match s with
  | EmptyString => EmptyString
  | String c s' => if isspace c then lstrip s' else s
  end.

Fixpoint rstrip (s : string) : string :=
  match s with
  | EmptyString => EmptyString
  | String c s' =>
      match rstrip s' with
      | EmptyString => if isspace c then EmptyString else String c EmptyString
      | r => String c r
      end
  end.

(** [s.strip()] *)
Definition strip (s : string) : string := rstrip (lstrip s).

(** [s.split(sep)] for a one-character separator: never empty. *)
Fixpoint split (sep : ascii) (s : string) : list string :=
  match s with
  | EmptyString => [EmptyString]
  | String c s' =>
      if Ascii.eqb c sep then EmptyString :: split sep s'
      else
        match split sep s' with
        | [] => [String c EmptyString]
        | p :: ps => String c p :: ps
        end
  end.

(** [l[i]] *)
Definition index {A : Type} (l : list A) (i : nat) : py A :=
  match nth_error l i with
  | Some a => Ret a
  | None => Raise IndexError
  end.

Definition hex_digit (c : ascii) : option Z :=
  let n := Z.of_nat (nat_of_ascii c) in
  if ((48 <=? n) && (n <=? 57))%Z then Some (n - 48)%Z
  else if ((97 <=? n) && (n <=? 102))%Z then Some (n - 87)%Z
  else if ((65 <=? n) && (n <=? 70))%Z then Some (n - 55)%Z
  else None.

(** Digits after the first one; a single underscore may separate two
    digits. *)
Fixpoint hex_tail (acc : Z) (s : string) : option Z :=
  match s with
  | EmptyString => Some acc
  | String c s' =>
      match hex_digit c with
      | Some d => hex_tail (16 * acc + d) s'
      | None =>
          if Ascii.eqb c "_" then
            match s' with
            | String c' s'' =>
                match hex_digit c' with
                | Some d => hex_tail (16 * acc + d) s''
                | None => None
                end
            | EmptyString => None
            end
          else None
      end
  end.

Definition hex_body (s : string) : option Z :=
  match s with
  | String c s' =>
      match hex_digit c with
      | Some d => hex_tail d s'
      | None => None
      end
  | EmptyString => None
  end.

(** The magnitude: an optional [0x]/[0X] prefix, after which one
    underscore is allowed, then the digits. *)
Definition hex_magnitude (s : string) : option Z :=
  match s with
  | String "0" (String x s') =>
      if Ascii.eqb x "x" || Ascii.eqb x "X" then
        match s' with
        | String "_" s'' => hex_body s''
        | _ => hex_body s'
        end
      else hex_body s
  | _ => hex_body s
  end.

(** [int(s, 16)] on ASCII input. *)
Definition int16 (s : string) : py Z :=
  let s := strip s in
  let signed :=
    match s with
    | String "-" s' => (true, s')
    | String "+" s' => (false, s')
    | _ => (false, s)
    end in
  match hex_magnitude (snd signed) with
  | Some v => Ret (if fst signed then (- v)%Z else v)
  | None => Raise ValueError
  end.

(** ** monitor.py: SystemMonitor.get_throttling_status *)

Module SystemMonitor.

Record throttling : Type := mk_throttling {
  raw_value : string;
  under_voltage_now : bool;
  freq_capped_now : bool;
  throttled_now : bool;
  soft_temp_limit_now : bool;
  under_voltage_occurred : bool;
  freq_capped_occurred : bool;
  throttled_occurred : bool;
  soft_temp_limit_occurred : bool
}.

(** What [subprocess.run(['vcgencmd', 'get_throttled'], ...)] did: it
    raised, or it completed with a return code and captured output. *)
Inductive subprocess_run : Type :=
| RunRaises (e : pyexn)
| Completed (returncode : Z) (stdout : string).

(** [bool(throttled_value & mask)] *)
Definition flag (throttled_value mask : Z) : bool :=
  negb (Z.land throttled_value mask =? 0)%Z.

(** The dictionary built from the parsed status word. *)
Definition decode (throttled_hex : string) (throttled_value : Z) : throttling :=
  mk_throttling throttled_hex
    (flag throttled_value 0x1)
    (flag throttled_value 0x2)
    (flag throttled_value 0x4)
    (flag throttled_value 0x8)
    (flag throttled_value 0x10000)
    (flag throttled_value 0x20000)
    (flag throttled_value 0x40000)
    (flag throttled_value 0x80000).

(** The body of the [try] block. *)
Definition try_body (result : subprocess_run) : py (option throttling) :=
  match result with
  | RunRaises e => Raise e
  | Completed returncode stdout =>
      if (returncode =? 0)%Z then
        throttled_hex <- index (split "=" (strip stdout)) 1 ;;
        throttled_value <- int16 throttled_hex ;;
        Ret (Some (decode throttled_hex throttled_value))
      else Ret None
  end.

(** [except (FileNotFoundError, subprocess.TimeoutExpired, IndexError,
    ValueError)] *)
Definition caught (e : pyexn) : bool :=
  match e with
  | FileNotFoundError | TimeoutExpired | IndexError | ValueError => true
  | _ => false
  end.

Definition get_throttling_status (is_raspberry_pi : bool)
           (result : subprocess_run) : py (option throttling) :=
  if negb is_raspberry_pi then Ret None
  else
    match try_body result with
    | Raise e => if caught e then Ret None else Raise e
    | r => r
    end.

End SystemMonitor.

(** ** Dictionaries with string keys

    A [dict] keeps its keys in insertion order; assigning to a key that is
    already there keeps its position. *)

Definition dict (V : Type) : Type := list (string * V).

Fixpoint get {V : Type} (d : dict V) (k : string) : option V :=
  match d with
  | [] => None
  | (k', v) :: d' => if String.eqb k' k then Some v else get d' k
  end.

Fixpoint set {V : Type} (d : dict V) (k : string) (v : V) : dict V :=
  match d with
  | [] => [(k, v)]
  | (k', v') :: d' =>
      if String.eqb k' k then (k', v) :: d' else (k', v') :: set d' k v
  end.

Definition keys {V : Type} (d : dict V) : list string := map fst d.

Definition values {V : Type} (d : dict V) : list V := map snd d.

(** [d.get(k, default)] *)
Definition get_default {V : Type} (d : dict V) (k : string) (default : V) : V :=
  match get d k with
  | Some v => v
  | None => default
  end.

(** [max(d, key=d.get)] and [min(d, key=d.get)]: the first key, in
    insertion order, whose value is extremal. [better y m] says that the
    value [y] strictly beats the best value [m] seen so far. *)
Definition best_key {V : Type} (better : V -> V -> bool) (d : dict V) : py string :=
  match d with
  | [] => Raise ValueError
  | kv :: r =>
      Ret (fst (fold_left (fun m y => if better (snd y) (snd m) then y else m) r kv))
  end.

Definition max_key (d : dict Q) : py string := best_key (fun y m => Qltb m y) d.

Definition min_key (d : dict Q) : py string := best_key (fun y m => Qltb y m) d.

Definition max_key_nat (d : dict nat) : py string :=
  best_key (fun y m => (m <? y)%nat) d.

(** ** logger.py: BenchmarkLogger.__init__ *)

(** [datetime.now()] *)
Record datetime : Type := mk_datetime {
  year : Z;
  month : Z;
  day : Z;
  hour : Z;
  minute : Z;
  second : Z;
  microsecond : Z
}.

(** The field ranges of a [datetime] whose year has four digits. *)
Definition valid_datetime (d : datetime) : Prop :=
  (1000 <= year d <= 9999 /\ 1 <= month d <= 12 /\ 1 <= day d <= 31 /\
   0 <= hour d < 24 /\ 0 <= minute d < 60 /\ 0 <= second d < 60 /\
   0 <= microsecond d < 1000000)%Z.

Definition digit (n : Z) : ascii := ascii_of_N (Z.to_N (48 + n)).

(** A two-digit and a four-digit zero-padded decimal field. *)
Definition pad2 (n : Z) (rest : string) : string :=
  String (digit ((n / 10) mod 10)) (String (digit (n mod 10)) rest).

Definition pad4 (n : Z) (rest : string) : string :=
  String (digit ((n / 1000) mod 10)) (String (digit ((n / 100) mod 10)) (pad2 n rest)).

(** [d.strftime('%Y-%m-%d_%H-%M-%S')], followed by [rest]. *)
Definition strftime (d : datetime) (rest : string) : string :=
  pad4 (year d) (String "-" (pad2 (month d) (String "-" (pad2 (day d)
    (String "_" (pad2 (hour d) (String "-" (pad2 (minute d)
      (String "-" (pad2 (second d) rest)))))))))).

(** A [pathlib.Path], as its sequence of components. *)
Definition Path : Type := list string.

Module BenchmarkLogger.

Record state : Type := mk {
  model_name : string;
  log_dir : Path;
  log_filename : string;
  log_path : Path;
  json_filename : string;
  json_path : Path
}.

Definition __init__ (now : datetime) (model_name log_dir : string) : state :=
  let dir := [log_dir; model_name] in
  let log_filename := (model_name ++ "_" ++ strftime now ".log")%string in
  let json_filename := (model_name ++ "_" ++ strftime now ".json")%string in
  mk model_name dir log_filename (dir ++ [log_filename])
     json_filename (dir ++ [json_filename]).

Definition get_log_path (self : state) : Path := log_path self.

Definition get_json_path (self : state) : Path := json_path self.

End BenchmarkLogger.

(** ** run_yolov8.py: YOLOv8Benchmark._write_summary *)

(** One entry of [metrics_buffer]. A field is [None] when its key is not in
    the record; [temperature] is also [None] when the key holds [None],
    since the summary reads it through [m.get('temperature') is not None]. *)
Record MetricRecord : Type := mk_metric {
  timestamp : option Q;
  frame : option Z;
  inference_time : option Q;
  fps : option Q;
  cpu_percent : option Q;
  memory_percent : option Q;
  temperature : option Q;
  throttled : option bool;
  load_1min : option Q
}.

(** [[m.get(f) for m in metrics_buffer if f in m]] *)
Fixpoint collect (f : MetricRecord -> option Q) (metrics_buffer : list MetricRecord) : list Q :=
  match metrics_buffer with
  | [] => []
  | m :: r =>
      match f m with
      | Some v => v :: collect f r
      | None => collect f r
      end
  end.

Definition is_throttled (m : MetricRecord) : bool :=
  match throttled m with
  | Some b => b
  | None => false
  end.

Module YOLOv8Benchmark.

(** [e(l) if l else 0] *)
Definition if_nonempty (l : list Q) (e : list Q -> py Q) : py Q :=
  match l with
  | [] => Ret 0
  | _ :: _ => e l
  end.

Definition mean (l : list Q) : py Q := truediv (sum l) (len l).

(** The [summary] dictionary handed to the logger. [now] is the clock
    read by [get_average_fps()]. *)
Definition _write_summary (now : Q) (fps_calc : FPSCalculator.state)
           (metrics_buffer : list MetricRecord) : py (dict Q) :=
  let inference_times := collect inference_time metrics_buffer in
  let fps_values := collect fps metrics_buffer in
  let cpu_values := collect cpu_percent metrics_buffer in
  let memory_values := collect memory_percent metrics_buffer in
  let temp_values := collect temperature metrics_buffer in
  let throttle_count := length (filter is_throttled metrics_buffer) in
  avg_fps <- FPSCalculator.get_average_fps now fps_calc ;;
  min_fps <- if_nonempty fps_values py_min ;;
  max_fps <- if_nonempty fps_values py_max ;;
  avg_inference_ms <-
    if_nonempty inference_times (fun l => a <- mean l ;; Ret (a * 1000)) ;;
  min_inference_ms <-
    if_nonempty inference_times (fun l => a <- py_min l ;; Ret (a * 1000)) ;;
  max_inference_ms <-
    if_nonempty inference_times (fun l => a <- py_max l ;; Ret (a * 1000)) ;;
  avg_cpu <- if_nonempty cpu_values mean ;;
  max_cpu <- if_nonempty cpu_values py_max ;;
  avg_memory <- if_nonempty memory_values mean ;;
  max_memory <- if_nonempty memory_values py_max ;;
  let summary : dict Q :=
    [("total_frames"%string, inject_Z (FPSCalculator.get_frame_count fps_calc));
     ("avg_fps"%string, avg_fps);
     ("min_fps"%string, min_fps);
     ("max_fps"%string, max_fps);
     ("avg_inference_ms"%string, avg_inference_ms);
     ("min_inference_ms"%string, min_inference_ms);
     ("max_inference_ms"%string, max_inference_ms);
     ("avg_cpu"%string, avg_cpu);
     ("max_cpu"%string, max_cpu);
     ("avg_memory"%string, avg_memory);
     ("max_memory"%string, max_memory);
     ("throttle_events"%string, inject_Z (Z.of_nat throttle_count))] in
  match temp_values with
  | [] => Ret summary
  | initial_temp :: _ =>
      avg_temperature <- mean temp_values ;;
      max_temperature <- py_max temp_values ;;
      Ret (set (set (set summary "avg_temperature" avg_temperature)
                    "max_temperature" max_temperature)
               "temp_rise" (max_temperature - initial_temp))
  end.

End YOLOv8Benchmark.

(** ** compare_results.py: BenchmarkComparator *)

Module BenchmarkComparator.

(** A loaded JSON log: its ['summary'] entry, when it has one. *)
Record run : Type := mk_run {
  summary : option (dict Q)
}.

Record improvement : Type := mk_improvement {
  percentage : Q;
  better_model : string;
  direction : string
}.

Record performance : Type := mk_performance {
  fps : dict Q;
  fps_improvement : option improvement;
  inference_ms : dict Q;
  inference_improvement : option improvement
}.

Record system : Type := mk_system {
  cpu : dict Q;
  memory : dict Q;
  temperature : option (dict Q);
  throttle_events : dict Q
}.

(** The comparison dictionary. An [improvement] that is [None] stands for
    the empty dictionary, a [temperature] that is [None] for a missing
    key. *)
Record comparison : Type := mk_comparison {
  models : list string;
  perf : performance;
  sys : system;
  winner : dict string
}.

(** [self.results[model_name] = data] *)
Definition load_json_log (data : run) (model_name : string)
           (results : dict run) : dict run :=
  set results model_name data.

Definition _calculate_improvement (data : dict Q) (lower_is_better : bool)
  : py (option improvement) :=
  match data with
  | [(m0, v0); (m1, v1)] =>
      improvement_pct <-
        (if lower_is_better
         then (r <- truediv (v0 - v1) v0 ;; Ret (r * 100))
         else (r <- truediv (v1 - v0) v0 ;; Ret (r * 100))) ;;
      let better_model :=
        if lower_is_better
        then (if Qltb v1 v0 then m1 else m0)
        else (if Qltb v0 v1 then m1 else m0) in
      Ret (Some (mk_improvement (Qabs improvement_pct) better_model
                   (if Qltb 0 improvement_pct then "improvement" else "regression")))
  | _ => Ret None
  end.

(** [{name: summary.get(key, 0) for name, summary in summaries.items()}] *)
Definition column (key : string) (summaries : dict (dict Q)) : dict Q :=
  map (fun ns => (fst ns, get_default (snd ns) key 0)) summaries.

(** [{name: summary.get(key) for name, summary in summaries.items()
      if summary.get(key)}]: a value counts when it is there and is not
    zero. *)
Fixpoint truthy_column (key : string) (summaries : dict (dict Q)) : dict Q :=
  match summaries with
  | [] => []
  | (name, summary) :: r =>
      match get summary key with
      | Some v =>
          if Qeq_bool v 0 then truthy_column key r
          else (name, v) :: truthy_column key r
      | None => truthy_column key r
      end
  end.

(** [None] is the empty dictionary returned for fewer than two runs. *)
Definition compare (results : dict run) : py (option comparison) :=
  if (length results <? 2)%nat then Ret None
  else
    let summaries : dict (dict Q) :=
      map (fun nd => (fst nd,
                      match summary (snd nd) with Some s => s | None => [] end))
          results in
    let fps_data := column "avg_fps" summaries in
    w_fps <- max_key fps_data ;;
    fps_imp <- _calculate_improvement fps_data false ;;
    let inference_data := column "avg_inference_ms" summaries in
    w_inference <- min_key inference_data ;;
    inference_imp <- _calculate_improvement inference_data true ;;
    let cpu_data := column "avg_cpu" summaries in
    w_cpu <- min_key cpu_data ;;
    let memory_data := column "avg_memory" summaries in
    w_memory <- min_key memory_data ;;
    let winner : dict string :=
      [("fps"%string, w_fps); ("inference"%string, w_inference);
       ("cpu"%string, w_cpu); ("memory"%string, w_memory)] in
    let temp_data := truthy_column "avg_temperature" summaries in
    let throttle_data := column "throttle_events" summaries in
    let perf := mk_performance fps_data fps_imp inference_data inference_imp in
    match temp_data with
    | [] =>
        Ret (Some (mk_comparison (keys results) perf
                     (mk_system cpu_data memory_data None throttle_data)
                     winner))
    | _ :: _ =>
        w_temp <- min_key temp_data ;;
        Ret (Some (mk_comparison (keys results) perf
                     (mk_system cpu_data memory_data (Some temp_data) throttle_data)
                     (set winner "temperature" w_temp)))
    end.

(** The "overall assessment" block printed by [print_comparison]: the
    win count of every model and the one name printed as overall
    winner. *)
Record assessment : Type := mk_assessment {
  wins : dict nat;
  overall_winner : string
}.

(** [wins = {model: 0 for model in models}], then one win per category
    whose winner is one of the models. *)
Definition count_wins (c : comparison) : dict nat :=
  fold_left
    (fun wins cw =>
       match get wins (snd cw) with
       | Some n => set wins (snd cw) (S n)
       | None => wins
       end)
    (winner c)
    (fold_left (fun wins model => set wins model 0%nat) (models c) []).

Definition print_comparison (c : comparison) : py assessment :=
  let wins := count_wins c in
  overall_winner <- max_key_nat wins ;;
  Ret (mk_assessment wins overall_winner).

End BenchmarkComparator.

(** ** fps.py: sequences of calls on an FPSCalculator *)

Module FPSCalculatorCalls.

Import FPSCalculator.

(** The state-changing calls, each with the clock reading it observes. *)
Inductive call : Type :=
| Start (now : Q)
| Update (now : Q)
| Reset.

Definition step (c : call) (self : state) : py state :=
  match c with
  | Start now => Ret (start now self)
  | Update now => r <- update now self ;; Ret (fst r)
  | Reset => Ret (reset self)
  end.

Fixpoint run (calls : list call) (self : state) : py state :=
  match calls with
  | [] => Ret self
  | c :: calls' => s <- step c self ;; run calls' s
  end.

End FPSCalculatorCalls.

(** ** monitor.py: SystemMonitor.get_cpu_temp and the snapshot *)

Module SystemMonitorTemp.

Import SystemMonitor.

(** What [open(path).read()] did. *)
Inductive file_read : Type :=
| ReadRaises (e : pyexn)
| Content (text : string).

Section Float.

(** Python's [float(s)]; it raises [ValueError] on text that is not a
    number. *)
Variable float : string -> py Q.

(** The first [try] block: the reading of [vcgencmd measure_temp], or
    [None] when the command returns a non-zero code. *)
Definition vcgencmd_temp (result : subprocess_run) : py (option Q) :=
  match result with
  | RunRaises e => Raise e
  | Completed returncode stdout =>
      if (returncode =? 0)%Z then
        let temp_str := strip stdout in
        field <- index (split "=" temp_str) 1 ;;
        number <- index (split "'" field) 0 ;;
        temp <- float number ;;
        Ret (Some temp)
      else Ret None
  end.

(** The second [try] block: the thermal zone file, in millidegrees. *)
Definition thermal_zone_temp (zone : file_read) : py (option Q) :=
  match zone with
  | ReadRaises e => Raise e
  | Content text =>
      milli <- float (strip text) ;;
      temp <- truediv milli 1000 ;;
      Ret (Some temp)
  end.

(** [except (FileNotFoundError, ValueError)] *)
Definition caught_zone (e : pyexn) : bool :=
  match e with
  | FileNotFoundError | ValueError => true
  | _ => false
  end.

Definition get_cpu_temp (is_raspberry_pi : bool) (result : subprocess_run)
           (zone : file_read) : py (option Q) :=
  if negb is_raspberry_pi then Ret None
  else
    let fallback :=
      match thermal_zone_temp zone with
      | Raise e => if caught_zone e then Ret None else Raise e
      | r => r
      end in
    match vcgencmd_temp result with
    | Ret (Some temp) => Ret (Some temp)
    | Ret None => fallback
    | Raise e => if caught e then fallback else Raise e
    end.

End Float.

End SystemMonitorTemp.

(** The dictionary returned by [get_full_snapshot()], with the entries of
    the nested [cpu], [memory] and [load] dictionaries that the logger
    reads. *)
Record snapshot : Type := mk_snapshot {
  snap_timestamp : Q;
  snap_cpu_overall : Q;
  snap_memory_percent : Q;
  snap_load_1min : Q;
  snap_temperature : option Q;
  snap_throttling : option SystemMonitor.throttling
}.

(** ** logger.py: the metrics buffer of a BenchmarkLogger *)

Module MetricsBuffer.

(** [self.metrics_buffer.append(metric_data)]; the line written to the
    log file is not modelled. *)
Definition log_metric (metric_data : MetricRecord)
           (metrics_buffer : list MetricRecord) : list MetricRecord :=
  metrics_buffer ++ [metric_data].

(** [now] is [datetime.now().timestamp()]. *)
Definition log_inference (now : Q) (frame_num : Z) (inference_time fps : Q)
           (metrics_buffer : list MetricRecord) : list MetricRecord :=
  log_metric
    (mk_metric (Some now) (Some frame_num) (Some inference_time) (Some fps)
               None None None None None)
    metrics_buffer.

(** The record built from a snapshot: [throttled] is set only when the
    snapshot carries a throttling status. *)
Definition snapshot_metric (s : snapshot) : MetricRecord :=
  mk_metric (Some (snap_timestamp s)) None None None
            (Some (snap_cpu_overall s)) (Some (snap_memory_percent s))
            (snap_temperature s)
            (match snap_throttling s with
             | Some throttle =>
                 Some (SystemMonitor.throttled_now throttle
                       || SystemMonitor.under_voltage_now throttle)
             | None => None
             end)
            (Some (snap_load_1min s)).

Definition log_system_snapshot (s : snapshot)
           (metrics_buffer : list MetricRecord) : list MetricRecord :=
  metrics_buffer ++ [snapshot_metric s].

End MetricsBuffer.

(** ** run_yolov8.py: the loop of run_image_benchmark *)

Module ImageBenchmark.

(** What one iteration observes: the clock readings of
    [inference_timer.start()], [inference_timer.stop()],
    [fps_calc.update()] and [log_inference], and the snapshots the
    monitoring thread appended to the buffer since the previous
    iteration. *)
Record observed : Type := mk_observed {
  monitored : list snapshot;
  t_start : Q;
  t_stop : Q;
  t_update : Q;
  t_log : Q
}.

Record loop_state : Type := mk_loop {
  inference_timer : InferenceTimer.state;
  fps_calc : FPSCalculator.state;
  metrics_buffer : list MetricRecord
}.

(** The body of [for i in range(num_iterations)]. *)
Definition iteration (i : nat) (o : observed) (s : loop_state) : py loop_state :=
  let buffer :=
    fold_left (fun b snap => MetricsBuffer.log_system_snapshot snap b)
              (monitored o) (metrics_buffer s) in
  let timer := InferenceTimer.start (t_start o) (inference_timer s) in
  let stopped := InferenceTimer.stop (t_stop o) timer in
  let inference_time := snd stopped in
  r <- FPSCalculator.update (t_update o) (fps_calc s) ;;
  let fps := snd r in
  let buffer' :=
    if ((i + 1) mod 10 =? 0)%nat
    then MetricsBuffer.log_inference (t_log o) (Z.of_nat (i + 1)) inference_time fps buffer
    else buffer in
  Ret (mk_loop (fst stopped) (fst r) buffer').

(** The iterations from number [i] on, one per element of [seen]. *)
Fixpoint loop (i : nat) (seen : list observed) (s : loop_state) : py loop_state :=
  match seen with
  | [] => Ret s
  | o :: seen' => s' <- iteration i o s ;; loop (S i) seen' s'
  end.

(** From [fps_calc.start()] to the summary: a new benchmark object and a
    new logger, [num_iterations = length seen], and the snapshots logged
    after the last iteration, before the monitoring thread is joined. *)
Definition run_image_benchmark (t0 : Q) (seen : list observed)
           (trailing : list snapshot) (t_end : Q)
  : py (loop_state * dict Q) :=
  let fps0 := FPSCalculator.start t0 (FPSCalculator.mk 30 [] 0 None None) in
  s <- loop 0 seen (mk_loop InferenceTimer.__init__ fps0 []) ;;
  let buffer :=
    fold_left (fun b snap => MetricsBuffer.log_system_snapshot snap b)
              trailing (metrics_buffer s) in
  summary <- YOLOv8Benchmark._write_summary t_end (fps_calc s) buffer ;;
  Ret (mk_loop (inference_timer s) (fps_calc s) buffer, summary).

End ImageBenchmark.

(** ** compare_results.py: find_latest_logs *)

Module LatestLogs.





End LatestLogs.

(** * Properties *)

(** ** Arithmetic of the idealised floats *)

Lemma Qltb_iff (a b : Q) : Qltb a b = true <-> a < b.
Proof.
  unfold Qltb. rewrite negb_true_iff. split; intro H.
  - apply Qnot_le_lt. intro Hle. apply Qle_bool_iff in Hle. congruence.
  - destruct (Qle_bool b a) eqn:E; [|reflexivity].
    apply Qle_bool_iff in E. exfalso. exact (Qlt_not_le _ _ H E).
Qed.

Lemma Qltb_false_iff (a b : Q) : Qltb a b = false <-> ~ a < b.
Proof.
  rewrite <- Qltb_iff. destruct (Qltb a b); split; congruence.
Qed.

Lemma truediv_nonzero (a b : Q) : ~ b == 0 -> truediv a b = Ret (a / b).
Proof.
  intro H. unfold truediv. destruct (Qeq_bool b 0) eqn:E; [|reflexivity].
  apply Qeq_bool_eq in E. contradiction.
Qed.


Lemma len_pos (x : Q) (l : list Q) : 0 < len (x :: l).
Proof.
  unfold len, Qlt. simpl. lia.
Qed.

Lemma len_nonzero (x : Q) (l : list Q) : ~ len (x :: l) == 0.
Proof.
  intro H. pose proof (len_pos x l) as P. rewrite H in P.
  exact (Qlt_irrefl _ P).
Qed.

(** The quotient by a positive number has the sign of the numerator. *)
Lemma Qdiv_pos_iff (a b : Q) : 0 < b -> (0 < a / b <-> 0 < a).
Proof.
  intro Hb. split; intro H.
  - assert (E : a == (a / b) * b) by (field; intro Z; rewrite Z in Hb; exact (Qlt_irrefl _ Hb)).
    rewrite E. apply Qmult_lt_0_compat; assumption.
  - apply Qlt_shift_div_l; [assumption|]. now rewrite Qmult_0_l.
Qed.

(** ** Lists: the last elements and the bounded queue *)

Section Lists.

Context {A : Type}.

Lemma tl_skipn (k : nat) (l : list A) : tl (skipn k l) = skipn (S k) l.
Proof.
  revert l. induction k as [|k IH]; intros [|a l]; try reflexivity.
  change (tl (skipn k l) = skipn (S k) l). apply IH.
Qed.

Lemma lastn_length (n : nat) (l : list A) :
  length (lastn n l) = Nat.min n (length l).
Proof.
  unfold lastn. rewrite length_skipn. lia.
Qed.

Lemma lastn_all (n : nat) (l : list A) : (length l <= n)%nat -> lastn n l = l.
Proof.
  intro H. unfold lastn. replace (length l - n)%nat with 0%nat by lia.
  reflexivity.
Qed.

Lemma lastn_min (n : nat) (l : list A) :
  lastn (Nat.min n (length l)) l = lastn n l.
Proof.
  unfold lastn. f_equal. lia.
Qed.

Lemma lastn_snoc_short (n : nat) (l : list A) (x : A) :
  (length l < n)%nat -> lastn n (l ++ [x]) = lastn n l ++ [x].
Proof.
  intro H. rewrite !lastn_all; [reflexivity|lia|].
  rewrite length_app. simpl. lia.
Qed.

Lemma lastn_snoc_full (n : nat) (l : list A) (x : A) :
  (0 < n <= length l)%nat -> lastn n (l ++ [x]) = tl (lastn n l ++ [x]).
Proof.
  intros [Hn Hl]. unfold lastn. rewrite length_app. simpl length.
  replace (length l + 1 - n)%nat with (S (length l - n)) by lia.
  rewrite <- tl_skipn, skipn_app.
  replace (length l - n - length l)%nat with 0%nat by lia.
  reflexivity.
Qed.

End Lists.

Lemma deque_append_lastn (w : Z) (x : Q) (hist : list Q) :
  (0 <= w)%Z ->
  deque_append w x (lastn (Z.to_nat w) hist) = lastn (Z.to_nat w) (hist ++ [x]).
Proof.
  intro Hw. unfold deque_append.
  destruct (Z.eqb_spec w 0) as [->|Hnz].
  - simpl. unfold lastn. rewrite !Nat.sub_0_r, !skipn_all. reflexivity.
  - cbv zeta. rewrite length_app, lastn_length. simpl length.
    destruct (Z.ltb_spec w (Z.of_nat (Nat.min (Z.to_nat w) (length hist) + 1))) as [Hfull|Hshort].
    + symmetry. apply lastn_snoc_full. lia.
    + symmetry. apply lastn_snoc_short. lia.
Qed.

(** ** FPSCalculator *)

Module FpsProps.

Import FPSCalculator.

(** [get_fps()] returns on every state: its one division by the window
    length is guarded by the emptiness test, the other by the sign
    test. *)
Lemma get_fps_cases (c : state) :
  match frame_times c with
  | [] => get_fps c = Ret 0
  | _ :: _ =>
      (0 < sum (frame_times c) /\
       get_fps c = Ret (1 / (sum (frame_times c) / len (frame_times c)))) \/
      (~ 0 < sum (frame_times c) /\ get_fps c = Ret 0)
  end.
Proof.
  unfold get_fps. destruct (frame_times c) as [|x l] eqn:E; [reflexivity|].
  rewrite truediv_nonzero by apply len_nonzero. simpl bind.
  destruct (Qltb 0 (sum (x :: l) / len (x :: l))) eqn:S.
  - apply Qltb_iff in S. left. split.
    + now apply (Qdiv_pos_iff (sum (x :: l)) (len_pos x l)).
    + apply truediv_nonzero. intro Z. rewrite Z in S. exact (Qlt_irrefl _ S).
  - apply Qltb_false_iff in S. right. split; [|reflexivity].
    intro P. apply S. now apply (Qdiv_pos_iff (sum (x :: l)) (len_pos x l)).
Qed.

Lemma get_fps_total (c : state) : exists q, get_fps c = Ret q.
Proof.
  pose proof (get_fps_cases c) as H.
  destruct (frame_times c); [eauto|].
  destruct H as [[_ H]|[_ H]]; eauto.
Qed.

Lemma inv_mean (s n : Q) : 0 < s -> ~ n == 0 -> 1 / (s / n) == n / s.
Proof.
  intros Hs Hn. field. split; [|assumption].
  intro Z. rewrite Z in Hs. exact (Qlt_irrefl _ Hs).
Qed.

Lemma update_total (now : Q) (c : state) :
  exists fps,
    update now c =
    Ret (mk (window_size c)
            (match last_frame_time c with
             | Some l => deque_append (window_size c) (now - l) (frame_times c)
             | None => frame_times c
             end)
            (frame_count c + 1) (start_time c) (Some now), fps).
Proof.
  unfold update.
  match goal with |- context [get_fps ?s] => destruct (get_fps_total s) as [q ->] end.
  simpl. eauto.
Qed.

(** The window after a run of updates holds the last [window_size]
    intervals of everything recorded so far. *)
Lemma updates_window (clock : list Q) :
  forall (c : state) (t : Q) (hist : list Q),
    (0 <= window_size c)%Z ->
    last_frame_time c = Some t ->
    frame_times c = lastn (Z.to_nat (window_size c)) hist ->
    exists c',
      updates clock c = Ret c' /\
      window_size c' = window_size c /\
      frame_times c' =
        lastn (Z.to_nat (window_size c)) (hist ++ intervals t clock).
Proof.
  induction clock as [|now clock IH]; intros c t hist Hw Hl Hf.
  - exists c. simpl. rewrite app_nil_r. auto.
  - simpl updates. destruct (update_total now c) as [fps ->]. simpl bind.
    rewrite Hl, Hf, deque_append_lastn by assumption.
    match goal with |- context [updates clock ?s] =>
      destruct (IH s now (hist ++ [now - t]) Hw eq_refl eq_refl)
        as (c' & Hrun & Hws & Hft)
    end.
    exists c'. simpl in *. rewrite <- app_assoc in Hft. auto.
Qed.

Lemma intervals_length (t : Q) (clock : list Q) :
  length (intervals t clock) = length clock.
Proof.
  revert t. induction clock; simpl; auto.
Qed.

(** A calculator whose only recorded interval is zero: [start()] and the
    first [update()] read the same clock value. *)
Definition same_tick : state := mk 30 [0] 1 (Some 5) (Some 5).

(** A calculator whose clock was set back between [start()] and the
    first [update()]. *)
Definition clock_set_back : state := mk 30 [-(1)] 1 (Some 5) (Some 4).

(** C1, as stated, fails: a non-empty window whose sum is not positive
    makes [get_fps()] return 0.0, which is not [len(window) /
    sum(window)]. With the one interval 0 that quotient is a division by
    zero, with the one interval -1 it is -1. *)
Lemma rolling_fps_not_always_quotient :
  (updates [5] (start 5 (mk 30 [] 0 None None)) = Ret same_tick /\
   frame_times same_tick <> [] /\
   get_fps same_tick = Ret 0 /\
   ~ py_Qeq (get_fps same_tick)
       (truediv (len (frame_times same_tick)) (sum (frame_times same_tick)))) /\
  (updates [4] (start 5 (mk 30 [] 0 None None)) = Ret clock_set_back /\
   frame_times clock_set_back <> [] /\
   get_fps clock_set_back = Ret 0 /\
   ~ py_Qeq (get_fps clock_set_back)
       (truediv (len (frame_times clock_set_back))
                (sum (frame_times clock_set_back)))).
Proof.
  repeat split; try reflexivity; try discriminate.
  vm_compute. auto.
Qed.

(** C1, amended: after [start()] and any number of updates the window
    holds the last [min(window_size, N)] frame intervals; [get_fps()]
    always returns; it returns 0.0 on an empty window, the number of
    intervals in the window over their sum (one over their mean) when
    that sum is positive, and 0.0 when it is not. *)
Theorem rolling_fps (w : Z) (c0 : state) (t0 : Q) (clock : list Q) :
  __init__ w = Ret c0 ->
  exists c,
    updates clock (start t0 c0) = Ret c /\
    frame_times c =
      lastn (Nat.min (Z.to_nat w) (length clock)) (intervals t0 clock) /\
    (exists q, get_fps c = Ret q) /\
    (frame_times c = [] -> get_fps c = Ret 0) /\
    (frame_times c <> [] -> 0 < sum (frame_times c) ->
     exists q, get_fps c = Ret q /\
               q == len (frame_times c) / sum (frame_times c) /\
               q == 1 / (sum (frame_times c) / len (frame_times c))) /\
    (frame_times c <> [] -> ~ 0 < sum (frame_times c) -> get_fps c = Ret 0).
Proof.
  unfold __init__. destruct (Z.ltb_spec w 0) as [|Hw]; [discriminate|].
  intros [= <-].
  destruct (@updates_window clock (start t0 (mk w [] 0 None None)) t0 [] Hw
              eq_refl eq_refl) as (c & Hrun & _ & Hft).
  simpl in Hft. exists c. split; [exact Hrun|]. split.
  - rewrite Hft, <- (intervals_length t0 clock). now rewrite lastn_min.
  - split; [apply get_fps_total|].
    pose proof (get_fps_cases c) as H. clear Hft Hrun.
    destruct (frame_times c) as [|x l].
    + repeat split; congruence.
    + split; [discriminate|]. split.
      * intros _ Hpos. destruct H as [[_ H]|[H _]]; [|contradiction].
        eexists. split; [exact H|]. split; [|reflexivity].
        apply inv_mean; [assumption|apply len_nonzero].
      * intros _ Hneg. destruct H as [[H _]|[_ H]]; [contradiction|exact H].
Qed.

Lemma rolling_fps_witness :
  exists c,
    updates [1; 3; 7] (start 0 (mk 2 [] 0 None None)) = Ret c /\
    get_fps c = Ret (1 / ((0 + (3 - 1) + (7 - 3)) / inject_Z 2)).
Proof.
  destruct (@rolling_fps 2 (mk 2 [] 0 None None) 0 [1; 3; 7] eq_refl)
    as (c & Hrun & Hft & _).
  exists c. split; [exact Hrun|].
  injection Hrun as <-. reflexivity.
Defined.

(** C6, as stated, fails for a started calculator: [start()] stores its
    own clock reading as the previous frame time, so the first
    [update()] records the interval since [start()]. *)
Lemma first_update_after_start_records :
  exists c fps,
    update 1 (start 0 (mk 30 [] 0 None None)) = Ret (c, fps) /\
    frame_times c = [1 - 0] /\
    frame_times c <> [].
Proof.
  eexists. eexists. split; [reflexivity|]. split; [reflexivity|discriminate].
Qed.

(** C6, amended: on a fresh or reset calculator the first [update()]
    records no interval, returns 0.0 and only stores the clock reading;
    after [start()] the first [update()] records the one interval since
    [start()] (nothing when the window size is 0). *)
Theorem first_update (w : Z) (c0 : state) (t now : Q) :
  __init__ w = Ret c0 ->
  (update now c0 = Ret (mk w [] 1 None (Some now), 0)) /\
  (forall c, update now (reset c) =
             Ret (mk (window_size c) [] 1 None (Some now), 0)) /\
  (exists fps,
     update now (start t c0) =
     Ret (mk w (if (w =? 0)%Z then [] else [now - t]) 1 (Some t) (Some now), fps)).
Proof.
  unfold __init__. destruct (Z.ltb_spec w 0) as [|Hw]; [discriminate|].
  intros [= <-]. split; [reflexivity|]. split; [reflexivity|].
  destruct (update_total now (start t (mk w [] 0 None None))) as [fps ->].
  exists fps. simpl. unfold deque_append.
  destruct (Z.eqb_spec w 0) as [|Hnz]; [reflexivity|].
  simpl. destruct (Z.ltb_spec w 1); [lia|reflexivity].
Qed.

Lemma first_update_witness :
  update 7 (mk 30 [] 0 None None) = Ret (mk 30 [] 1 None (Some 7), 0) /\
  exists fps,
    update 7 (start 5 (mk 30 [] 0 None None)) =
    Ret (mk 30 [7 - 5] 1 (Some 5) (Some 7), fps).
Proof.
  destruct (@first_update 30 (mk 30 [] 0 None None) 5 7 eq_refl)
    as (Hfresh & _ & Hstarted).
  split; [exact Hfresh|exact Hstarted].
Defined.

End FpsProps.

(** ** InferenceTimer *)

Module TimerProps.

Import InferenceTimer.

(** C5, as stated, fails for [get_average()]: on a timer with no
    recorded interval it returns the float 0.0, not [None]. *)
Lemma get_average_empty_is_numeric :
  get_average __init__ = Ret (PyFloat 0) /\
  get_average __init__ <> Ret PyNone.
Proof.
  split; [reflexivity|discriminate].
Qed.

(** C5, amended: with no recorded interval [get_min()] and [get_max()]
    return [None], while [get_average()] returns the numeric default
    0.0, the same value it returns after one interval of zero
    duration. *)
Theorem no_data_signals (pending : option Q) (t : Q) :
  get_min (mk pending []) = Ret PyNone /\
  get_max (mk pending []) = Ret PyNone /\
  get_average (mk pending []) = Ret (PyFloat 0) /\
  py_Qeq (a <- get_average (fst (stop t (start t __init__))) ;;
          match a with PyFloat q => Ret q | PyNone => Raise ValueError end)
         (Ret 0).
Proof.
  repeat split.
  cbv [stop start __init__ start_time times fst get_average app sum len
       fold_left length].
  rewrite truediv_nonzero by discriminate. cbv [bind py_Qeq].
  field.
Qed.

Definition pending (self : state) : nat :=
  match start_time self with
  | Some _ => 1
  | None => 0
  end.

Lemma step_bound (self : state) (c : call) :
  (length (times (step self c)) + pending (step self c)
   <= length (times self) + pending self + (if is_start c then 1 else 0))%nat.
Proof.
  destruct self as [[t0|] l], c; unfold pending; simpl;
    rewrite ?length_app; simpl; lia.
Qed.

Lemma run_bound (calls : list call) :
  forall self,
    (length (times (run calls self)) + pending (run calls self)
     <= length (times self) + pending self + starts calls)%nat.
Proof.
  unfold run, starts.
  induction calls as [|c calls IH]; intro self; simpl; [lia|].
  specialize (IH (step self c)). pose proof (step_bound self c) as Hs.
  destruct (is_start c); simpl; lia.
Qed.

(** C10: [stop()] always leaves no pending start; a [stop()] right after
    a [stop()] returns 0.0 and changes nothing; and over any sequence of
    calls on a new timer the recorded intervals are at most as many as
    the [start()] calls. *)
Theorem one_interval_per_start (calls : list call) (self : state) (t1 t2 : Q) :
  start_time (fst (stop t1 self)) = None /\
  stop t2 (fst (stop t1 self)) = (fst (stop t1 self), 0) /\
  (get_count (run calls __init__) <= starts calls)%nat.
Proof.
  assert (Hclear : start_time (fst (stop t1 self)) = None).
  { unfold stop. destruct (start_time self) eqn:E; [reflexivity|exact E]. }
  split; [exact Hclear|split].
  - revert Hclear. generalize (fst (stop t1 self)). intros s' Hclear.
    unfold stop. now rewrite Hclear.
  - pose proof (run_bound calls __init__) as H. unfold get_count.
    simpl in H. lia.
Qed.

End TimerProps.

(** ** SystemMonitor: the throttling status word *)

Module MonitorProps.

Import SystemMonitor.

(** Masking with a single bit leaves that bit or nothing. *)
Lemma land_pow2 (v : Z) (k : Z) :
  (0 <= k)%Z ->
  Z.land v (2 ^ k) = if Z.testbit v k then (2 ^ k)%Z else 0%Z.
Proof.
  intro Hk. apply Z.bits_inj'. intros m Hm.
  rewrite Z.land_spec, Z.pow2_bits_eqb by assumption.
  destruct (Z.eqb_spec k m) as [->|Hne].
  - destruct (Z.testbit v m); simpl.
    + rewrite Z.pow2_bits_eqb, Z.eqb_refl by assumption. reflexivity.
    + now rewrite Z.bits_0.
  - rewrite andb_false_r. destruct (Z.testbit v k).
    + rewrite Z.pow2_bits_eqb by assumption.
      symmetry. now apply Z.eqb_neq.
    + now rewrite Z.bits_0.
Qed.

Lemma flag_testbit (v : Z) (k : Z) :
  (0 <= k)%Z -> flag v (2 ^ k) = Z.testbit v k.
Proof.
  intro Hk. unfold flag. rewrite land_pow2 by assumption.
  destruct (Z.testbit v k); [|reflexivity].
  apply negb_true_iff, Z.eqb_neq.
  pose proof (Z.pow_pos_nonneg 2 k). lia.
Qed.

(** Whatever the command prints, a status that is returned is the
    decoding of the parsed word. *)
Lemma get_throttling_status_decodes (stdout throttled_hex : string) (v : Z) :
  index (split "=" (strip stdout)) 1 = Ret throttled_hex ->
  int16 throttled_hex = Ret v ->
  get_throttling_status true (Completed 0 stdout) =
  Ret (Some (decode throttled_hex v)).
Proof.
  intros Hs Hv. unfold get_throttling_status, try_body. simpl.
  rewrite Hs. simpl. rewrite Hv. reflexivity.
Qed.


End MonitorProps.

(** ** BenchmarkLogger: the storage paths *)

Module LoggerProps.

Import BenchmarkLogger.

(** Two clock readings fall in the same second. *)
Definition same_second (a b : datetime) : Prop :=
  year a = year b /\ month a = month b /\ day a = day b /\
  hour a = hour b /\ minute a = minute b /\ second a = second b.

Lemma digit_inj (a b : Z) :
  (0 <= a < 10)%Z -> (0 <= b < 10)%Z -> digit a = digit b -> a = b.
Proof.
  intros Ha Hb H. unfold digit in H.
  apply (f_equal N_of_ascii) in H.
  rewrite !N_ascii_embedding in H by lia. lia.
Qed.

(** Quotients and remainders by literals, for [lia]. *)
Ltac divmod := Z.to_euclidean_division_equations; lia.

Lemma pad2_inj (a b : Z) (r1 r2 : string) :
  (0 <= a < 100)%Z -> (0 <= b < 100)%Z ->
  pad2 a r1 = pad2 b r2 -> a = b /\ r1 = r2.
Proof.
  intros Ha Hb H. unfold pad2 in H. injection H as H1 H0 Hr.
  apply digit_inj in H1, H0; try divmod.
  split; [divmod|assumption].
Qed.

Lemma pad4_inj (a b : Z) (r1 r2 : string) :
  (0 <= a < 10000)%Z -> (0 <= b < 10000)%Z ->
  pad4 a r1 = pad4 b r2 -> a = b /\ r1 = r2.
Proof.
  intros Ha Hb H. unfold pad4, pad2 in H. injection H as H3 H2 H1 H0 Hr.
  apply digit_inj in H3, H2, H1, H0; try divmod.
  split; [divmod|assumption].
Qed.

Lemma String_tail (c c' : ascii) (s s' : string) :
  String c s = String c' s' -> s = s'.
Proof. now intros [= _ ->]. Qed.

Lemma strftime_inj (a b : datetime) (r1 r2 : string) :
  valid_datetime a -> valid_datetime b ->
  strftime a r1 = strftime b r2 -> same_second a b /\ r1 = r2.
Proof.
  unfold valid_datetime, strftime, same_second.
  intros (Ya & Ma & Da & ha & ma & sa & _) (Yb & Mb & Db & hb & mb & sb & _) H.
  apply pad4_inj in H as [EY H]; [|lia ..]. apply String_tail in H.
  apply pad2_inj in H as [EM H]; [|lia ..]. apply String_tail in H.
  apply pad2_inj in H as [ED H]; [|lia ..]. apply String_tail in H.
  apply pad2_inj in H as [Eh H]; [|lia ..]. apply String_tail in H.
  apply pad2_inj in H as [Em H]; [|lia ..]. apply String_tail in H.
  apply pad2_inj in H as [Es H]; [|lia ..].
  repeat split; assumption.
Qed.

Lemma strftime_same_second (a b : datetime) (r : string) :
  same_second a b -> strftime a r = strftime b r.
Proof.
  unfold same_second, strftime.
  intros (-> & -> & -> & -> & -> & ->). reflexivity.
Qed.

Lemma append_inv_head (s a b : string) :
  (s ++ a)%string = (s ++ b)%string -> a = b.
Proof.
  induction s as [|c s IH]; simpl; intro H; [assumption|].
  injection H as H. auto.
Qed.

(** The file name is the same exactly when the clock readings fall in
    the same second. *)
Lemma filename_eq_iff (model : string) (a b : datetime) (ext : string) :
  valid_datetime a -> valid_datetime b ->
  ((model ++ "_" ++ strftime a ext)%string =
   (model ++ "_" ++ strftime b ext)%string <-> same_second a b).
Proof.
  intros Va Vb. split; intro H.
  - apply append_inv_head in H. apply String_tail in H.
    now apply strftime_inj in H.
  - now rewrite (strftime_same_second ext H).
Qed.

Definition noon : datetime := mk_datetime 2024 5 17 12 0 0 0.

Definition noon_and_a_half : datetime := mk_datetime 2024 5 17 12 0 0 500000.

(** C9, as stated, fails: two loggers for the same model constructed
    at different instants of one second get the same log path and the
    same JSON path. *)
Lemma same_second_paths_collide :
  noon <> noon_and_a_half /\
  log_path (__init__ noon "yolov8" "logs") =
    log_path (__init__ noon_and_a_half "yolov8" "logs") /\
  json_path (__init__ noon "yolov8" "logs") =
    json_path (__init__ noon_and_a_half "yolov8" "logs").
Proof.
  split; [discriminate|]. split; reflexivity.
Qed.

(** C9, amended: the paths end in the model name and the construction
    time formatted to the second, so two loggers for the same model and
    log directory have distinct log paths, and distinct JSON paths,
    exactly when they are constructed in different seconds. *)
Theorem paths_distinct_iff (a b : datetime) (model dir : string) :
  valid_datetime a -> valid_datetime b ->
  (log_path (__init__ a model dir) <> log_path (__init__ b model dir)
   <-> ~ same_second a b) /\
  (json_path (__init__ a model dir) <> json_path (__init__ b model dir)
   <-> ~ same_second a b) /\
  log_path (__init__ a model dir) =
    [dir; model; (model ++ "_" ++ strftime a ".log")%string] /\
  json_path (__init__ a model dir) =
    [dir; model; (model ++ "_" ++ strftime a ".json")%string].
Proof.
  intros Va Vb.
  pose proof (filename_eq_iff model ".log" Va Vb) as Hlog.
  pose proof (filename_eq_iff model ".json" Va Vb) as Hjson.
  unfold __init__; simpl in *.
  repeat split; try reflexivity; intro H; intro K; apply H.
  - apply Hlog in K. congruence.
  - apply Hlog. congruence.
  - apply Hjson in K. congruence.
  - apply Hjson. congruence.
Qed.

Definition one_second_later : datetime := mk_datetime 2024 5 17 12 0 1 0.

Lemma paths_distinct_iff_witness :
  log_path (__init__ noon "yolov8" "logs") <>
    log_path (__init__ one_second_later "yolov8" "logs").
Proof.
  assert (V : forall d, d = noon \/ d = one_second_later -> valid_datetime d).
  { intros d [-> | ->]; unfold valid_datetime; simpl; lia. }
  apply (paths_distinct_iff "yolov8" "logs"
           (V noon (or_introl eq_refl)) (V one_second_later (or_intror eq_refl))).
  unfold same_second. simpl. lia.
Defined.

End LoggerProps.

(** ** Extremes and means of a non-empty sequence *)

Section Extremes.

Definition keep_min (m y : Q) : Q := if Qltb y m then y else m.

Definition keep_max (m y : Q) : Q := if Qltb m y then y else m.

Lemma keep_min_spec (m y : Q) :
  (keep_min m y = m \/ keep_min m y = y) /\ keep_min m y <= m /\ keep_min m y <= y.
Proof.
  unfold keep_min. destruct (Qltb y m) eqn:E.
  - apply Qltb_iff in E. repeat split; auto using Qlt_le_weak, Qle_refl.
  - apply Qltb_false_iff in E. repeat split; auto using Qnot_lt_le, Qle_refl.
Qed.

Lemma keep_max_spec (m y : Q) :
  (keep_max m y = m \/ keep_max m y = y) /\ m <= keep_max m y /\ y <= keep_max m y.
Proof.
  unfold keep_max. destruct (Qltb m y) eqn:E.
  - apply Qltb_iff in E. repeat split; auto using Qlt_le_weak, Qle_refl.
  - apply Qltb_false_iff in E. repeat split; auto using Qnot_lt_le, Qle_refl.
Qed.

Lemma fold_min_spec (r : list Q) :
  forall x,
    In (fold_left keep_min r x) (x :: r) /\
    forall v, In v (x :: r) -> fold_left keep_min r x <= v.
Proof.
  induction r as [|y r IH]; intro x; simpl.
  - split; [auto|]. intros v [<-|[]]. apply Qle_refl.
  - destruct (IH (keep_min x y)) as [Hin Hle].
    destruct (keep_min_spec x y) as (Hsel & Hx & Hy). split.
    + destruct Hin as [Hin|Hin]; [|auto].
      rewrite <- Hin. destruct Hsel as [->| ->]; auto.
    + intros v [<-|[<-|Hv]].
      * eapply Qle_trans; [apply Hle; left; reflexivity|exact Hx].
      * eapply Qle_trans; [apply Hle; left; reflexivity|exact Hy].
      * apply Hle. right. exact Hv.
Qed.

Lemma fold_max_spec (r : list Q) :
  forall x,
    In (fold_left keep_max r x) (x :: r) /\
    forall v, In v (x :: r) -> v <= fold_left keep_max r x.
Proof.
  induction r as [|y r IH]; intro x; simpl.
  - split; [auto|]. intros v [<-|[]]. apply Qle_refl.
  - destruct (IH (keep_max x y)) as [Hin Hle].
    destruct (keep_max_spec x y) as (Hsel & Hx & Hy). split.
    + destruct Hin as [Hin|Hin]; [|auto].
      rewrite <- Hin. destruct Hsel as [->| ->]; auto.
    + intros v [<-|[<-|Hv]].
      * eapply Qle_trans; [exact Hx|apply Hle; left; reflexivity].
      * eapply Qle_trans; [exact Hy|apply Hle; left; reflexivity].
      * apply Hle. right. exact Hv.
Qed.

(** [m] is the least element of [l]. *)
Definition is_min (l : list Q) (m : Q) : Prop :=
  In m l /\ forall v, In v l -> m <= v.

(** [m] is the greatest element of [l]. *)
Definition is_max (l : list Q) (m : Q) : Prop :=
  In m l /\ forall v, In v l -> v <= m.

Lemma py_min_spec (x : Q) (r : list Q) :
  exists m, py_min (x :: r) = Ret m /\ is_min (x :: r) m.
Proof.
  eexists. split; [reflexivity|]. exact (fold_min_spec r x).
Qed.

Lemma py_max_spec (x : Q) (r : list Q) :
  exists m, py_max (x :: r) = Ret m /\ is_max (x :: r) m.
Proof.
  eexists. split; [reflexivity|]. exact (fold_max_spec r x).
Qed.

End Extremes.

(** ** The end-of-run summary *)

Module SummaryProps.

Import YOLOv8Benchmark.

Definition is_mean (l : list Q) (a : Q) : Prop := a == sum l / len l.

(** A summary entry aggregates [values]: it is 0 when there are none,
    and otherwise the picked statistic times [scale]. *)
Definition aggregates (pick : list Q -> Q -> Prop) (scale : Q)
           (values : list Q) (entry : option Q) : Prop :=
  exists r,
    entry = Some r /\
    match values with
    | [] => r = 0
    | _ :: _ => exists m, pick values m /\ r == m * scale
    end.

(** The collected values are those of the records that have the field,
    in order. *)
Lemma collect_present (f : MetricRecord -> option Q) (buf : list MetricRecord) (v : Q) :
  In v (collect f buf) <-> exists m, In m buf /\ f m = Some v.
Proof.
  induction buf as [|m buf IH]; simpl.
  - split; [intros []|intros (m & [] & _)].
  - destruct (f m) as [x|] eqn:E; simpl; rewrite IH; split.
    + intros [<-|(m' & Hin & Hf)]; eauto.
    + intros (m' & [<-|Hin] & Hf); [left; congruence|eauto].
    + intros (m' & Hin & Hf); eauto.
    + intros (m' & [<-|Hin] & Hf); [congruence|eauto].
Qed.

Lemma mean_total (x : Q) (l : list Q) :
  mean (x :: l) = Ret (sum (x :: l) / len (x :: l)).
Proof.
  apply truediv_nonzero, len_nonzero.
Qed.

Lemma get_average_fps_total (now : Q) (c : FPSCalculator.state) :
  exists a, FPSCalculator.get_average_fps now c = Ret a.
Proof.
  unfold FPSCalculator.get_average_fps.
  destruct (FPSCalculator.start_time c) as [t0|]; [|eauto].
  destruct (FPSCalculator.frame_count c =? 0)%Z; [eauto|].
  destruct (Qltb 0 (now - t0)) eqn:E; [|eauto].
  apply Qltb_iff in E. rewrite truediv_nonzero; [eauto|].
  intro Z. rewrite Z in E. exact (Qlt_irrefl _ E).
Qed.

Section Entries.

Variable l : list Q.

Lemma min_entry :
  exists r, if_nonempty l py_min = Ret r /\ aggregates is_min 1 l (Some r).
Proof.
  destruct l as [|x r]; cbn [if_nonempty].
  - exists 0. split; [reflexivity|]. exists 0. auto.
  - destruct (py_min_spec x r) as (m & -> & Hm).
    exists m. split; [reflexivity|]. exists m. split; [reflexivity|].
    exists m. split; [exact Hm|]. now rewrite Qmult_1_r.
Qed.

Lemma max_entry :
  exists r, if_nonempty l py_max = Ret r /\ aggregates is_max 1 l (Some r).
Proof.
  destruct l as [|x r]; cbn [if_nonempty].
  - exists 0. split; [reflexivity|]. exists 0. auto.
  - destruct (py_max_spec x r) as (m & -> & Hm).
    exists m. split; [reflexivity|]. exists m. split; [reflexivity|].
    exists m. split; [exact Hm|]. now rewrite Qmult_1_r.
Qed.

Lemma mean_entry :
  exists r, if_nonempty l mean = Ret r /\ aggregates is_mean 1 l (Some r).
Proof.
  destruct l as [|x r]; cbn [if_nonempty].
  - exists 0. split; [reflexivity|]. exists 0. auto.
  - rewrite mean_total. eexists. split; [reflexivity|].
    eexists. split; [reflexivity|]. eexists. split; [reflexivity|].
    now rewrite Qmult_1_r.
Qed.

Lemma min_ms_entry :
  exists r,
    if_nonempty l (fun l => a <- py_min l ;; Ret (a * 1000)) = Ret r /\
    aggregates is_min 1000 l (Some r).
Proof.
  destruct l as [|x r]; cbn [if_nonempty].
  - exists 0. split; [reflexivity|]. exists 0. auto.
  - destruct (py_min_spec x r) as (m & -> & Hm). simpl.
    eexists. split; [reflexivity|]. eexists. split; [reflexivity|].
    exists m. split; [exact Hm|reflexivity].
Qed.

Lemma max_ms_entry :
  exists r,
    if_nonempty l (fun l => a <- py_max l ;; Ret (a * 1000)) = Ret r /\
    aggregates is_max 1000 l (Some r).
Proof.
  destruct l as [|x r]; cbn [if_nonempty].
  - exists 0. split; [reflexivity|]. exists 0. auto.
  - destruct (py_max_spec x r) as (m & -> & Hm). simpl.
    eexists. split; [reflexivity|]. eexists. split; [reflexivity|].
    exists m. split; [exact Hm|reflexivity].
Qed.

Lemma mean_ms_entry :
  exists r,
    if_nonempty l (fun l => a <- mean l ;; Ret (a * 1000)) = Ret r /\
    aggregates is_mean 1000 l (Some r).
Proof.
  destruct l as [|x r]; cbn [if_nonempty].
  - exists 0. split; [reflexivity|]. exists 0. auto.
  - rewrite mean_total. simpl.
    eexists. split; [reflexivity|]. eexists. split; [reflexivity|].
    eexists. split; [reflexivity|reflexivity].
Qed.

End Entries.

Definition fps_only : MetricRecord :=
  mk_metric None None None (Some 10) None None None None None.

(** C4, as stated, fails in two places: the temperature entries of a
    run with no temperature reading are left out of the summary, not set
    to 0, and [avg_fps] is the calculator's cumulative rate, not the
    mean of the recorded [fps] values. *)
Lemma summary_omits_temperature :
  exists s,
    _write_summary 0 (FPSCalculator.mk 30 [] 0 None None) [fps_only] = Ret s /\
    collect temperature [fps_only] = [] /\
    get s "avg_temperature" = None /\
    get s "avg_temperature" <> Some 0 /\
    collect fps [fps_only] = [10] /\
    get s "avg_fps" = Some 0.
Proof.
  eexists. split; [reflexivity|].
  repeat split; try reflexivity. discriminate.
Qed.

(** C4, amended: the summary is computed without raising for every
    metrics buffer, the empty one included. Each of [min_fps],
    [max_fps], [avg_/min_/max_inference_ms] (in milliseconds),
    [avg_/max_cpu] and [avg_/max_memory] is the statistic of the values
    of the records that have the field, and 0 when no record has it;
    [throttle_events] counts the throttled records; [total_frames] and
    [avg_fps] are read from the FPS calculator; the three temperature
    entries are the mean, the maximum and the rise from the first
    reading, and are absent when no record has a temperature. *)
Theorem summary_never_raises (now : Q) (fps_calc : FPSCalculator.state)
        (buf : list MetricRecord) :
  exists s,
    _write_summary now fps_calc buf = Ret s /\
    get s "total_frames" = Some (inject_Z (FPSCalculator.frame_count fps_calc)) /\
    (exists a, FPSCalculator.get_average_fps now fps_calc = Ret a /\
               get s "avg_fps" = Some a) /\
    aggregates is_min 1 (collect fps buf) (get s "min_fps") /\
    aggregates is_max 1 (collect fps buf) (get s "max_fps") /\
    aggregates is_mean 1000 (collect inference_time buf) (get s "avg_inference_ms") /\
    aggregates is_min 1000 (collect inference_time buf) (get s "min_inference_ms") /\
    aggregates is_max 1000 (collect inference_time buf) (get s "max_inference_ms") /\
    aggregates is_mean 1 (collect cpu_percent buf) (get s "avg_cpu") /\
    aggregates is_max 1 (collect cpu_percent buf) (get s "max_cpu") /\
    aggregates is_mean 1 (collect memory_percent buf) (get s "avg_memory") /\
    aggregates is_max 1 (collect memory_percent buf) (get s "max_memory") /\
    get s "throttle_events" =
      Some (inject_Z (Z.of_nat (length (filter is_throttled buf)))) /\
    match collect temperature buf with
    | [] =>
        get s "avg_temperature" = None /\
        get s "max_temperature" = None /\
        get s "temp_rise" = None
    | first :: _ =>
        exists a m,
          is_mean (collect temperature buf) a /\
          is_max (collect temperature buf) m /\
          get s "avg_temperature" = Some a /\
          get s "max_temperature" = Some m /\
          get s "temp_rise" = Some (m - first)
    end.
Proof.
  unfold _write_summary. cbv zeta.
  destruct (get_average_fps_total now fps_calc) as [a Ha]. rewrite Ha.
  destruct (min_entry (collect fps buf)) as (r1 & -> & H1).
  destruct (max_entry (collect fps buf)) as (r2 & -> & H2).
  destruct (mean_ms_entry (collect inference_time buf)) as (r3 & -> & H3).
  destruct (min_ms_entry (collect inference_time buf)) as (r4 & -> & H4).
  destruct (max_ms_entry (collect inference_time buf)) as (r5 & -> & H5).
  destruct (mean_entry (collect cpu_percent buf)) as (r6 & -> & H6).
  destruct (max_entry (collect cpu_percent buf)) as (r7 & -> & H7).
  destruct (mean_entry (collect memory_percent buf)) as (r8 & -> & H8).
  destruct (max_entry (collect memory_percent buf)) as (r9 & -> & H9).
  cbn [bind].
  destruct (collect temperature buf) as [|t0 temps] eqn:Et.
  - eexists. split; [reflexivity|].
    repeat (split; [first [reflexivity|assumption|eauto]|]).
    repeat split.
  - rewrite mean_total.
    destruct (py_max_spec t0 temps) as (m & -> & Hm). cbn [bind].
    eexists. split; [reflexivity|].
    repeat (split; [first [reflexivity|assumption|eauto]|]).
    exists (sum (t0 :: temps) / len (t0 :: temps)), m.
    repeat split; try reflexivity; apply Hm.
Qed.

End SummaryProps.

(** ** BenchmarkComparator *)

Module ComparatorProps.

Import BenchmarkComparator.

(** Peel one successful step off a computation known to return. *)
Ltac bind_inv H :=
  repeat match type of H with
    | bind ?m _ = Ret _ =>
        let E := fresh "E" in
        destruct m eqn:E; cbn [bind] in H; [|discriminate H]
    end.

Definition summaries_of (results : dict run) : dict (dict Q) :=
  map (fun nd => (fst nd, match summary (snd nd) with Some s => s | None => [] end))
      results.

(** A model reports a temperature when its summary has a non-zero
    [avg_temperature]. *)
Definition reports_temperature (s : dict Q) (v : Q) : Prop :=
  get s "avg_temperature" = Some v /\ ~ v == 0.

Lemma truthy_column_In (key : string) (summaries : dict (dict Q)) (name : string) (v : Q) :
  In (name, v) (truthy_column key summaries) <->
  exists s, In (name, s) summaries /\ get s key = Some v /\ ~ v == 0.
Proof.
  induction summaries as [|[n s] r IH]; simpl.
  - split; [intros []|intros (s & [] & _)].
  - destruct (get s key) as [x|] eqn:G.
    + destruct (Qeq_bool x 0) eqn:Z.
      * apply Qeq_bool_eq in Z. rewrite IH. split.
        -- intros (s' & Hin & Hg); eauto.
        -- intros (s' & [E|Hin] & Hg & Hnz); [|eauto].
           injection E as -> ->. rewrite G in Hg. injection Hg as ->.
           contradiction.
      * apply Qeq_bool_neq in Z. simpl. rewrite IH. split.
        -- intros [E|(s' & Hin & Hg)]; [|eauto].
           injection E as -> ->. eauto.
        -- intros (s' & [E|Hin] & Hg & Hnz); [|eauto].
           injection E as -> ->. left. congruence.
    + rewrite IH. split.
      * intros (s' & Hin & Hg); eauto.
      * intros (s' & [E|Hin] & Hg & Hnz); [|eauto].
        injection E as -> ->. congruence.
Qed.

(** What [compare] emits for the temperature, whenever it returns. *)
Lemma compare_temperature (results : dict run) (c : comparison) :
  compare results = Ret (Some c) ->
  match truthy_column "avg_temperature" (summaries_of results) with
  | [] => temperature (sys c) = None /\ get (winner c) "temperature" = None
  | td =>
      temperature (sys c) = Some td /\
      exists w, min_key td = Ret w /\ get (winner c) "temperature" = Some w
  end.
Proof.
  unfold compare. fold (summaries_of results).
  destruct (length results <? 2)%nat; [discriminate|].
  cbv zeta. intro H. bind_inv H.
  destruct (truthy_column "avg_temperature" (summaries_of results)) as [|kv td].
  - injection H as <-. split; reflexivity.
  - bind_inv H. injection H as <-. split; [reflexivity|].
    eexists. split; [reflexivity|reflexivity].
Qed.

(** [min_key] returns a key whose value no other value is below. *)
Lemma min_key_spec (kv : string * Q) (r : dict Q) :
  exists k v,
    min_key (kv :: r) = Ret k /\
    In (k, v) (kv :: r) /\
    forall k' v', In (k', v') (kv :: r) -> v <= v'.
Proof.
  unfold min_key, best_key.
  set (f := fun m y : string * Q => if Qltb (snd y) (snd m) then y else m).
  assert (F : forall r x,
             In (fold_left f r x) (x :: r) /\
             forall y, In y (x :: r) -> snd (fold_left f r x) <= snd y).
  { clear. intro r. induction r as [|y r IH]; intro x; simpl.
    - split; [auto|]. intros z [<-|[]]. apply Qle_refl.
    - destruct (IH (f x y)) as [Hin Hle].
      assert (Hf : (f x y = x \/ f x y = y) /\ snd (f x y) <= snd x /\ snd (f x y) <= snd y).
      { unfold f. destruct (Qltb (snd y) (snd x)) eqn:E.
        - apply Qltb_iff in E. repeat split; auto using Qlt_le_weak, Qle_refl.
        - apply Qltb_false_iff in E.
          repeat split; auto using Qnot_lt_le, Qle_refl. }
      destruct Hf as (Hsel & Hx & Hy). split.
      + destruct Hin as [Hin|Hin]; [|auto].
        rewrite <- Hin. destruct Hsel as [->| ->]; auto.
      + intros z [<-|[<-|Hz]].
        * eapply Qle_trans; [apply Hle; left; reflexivity|exact Hx].
        * eapply Qle_trans; [apply Hle; left; reflexivity|exact Hy].
        * apply Hle. right. exact Hz. }
  destruct (F r kv) as [Hin Hle].
  exists (fst (fold_left f r kv)), (snd (fold_left f r kv)).
  split; [reflexivity|]. split.
  - now rewrite <- surjective_pairing.
  - intros k' v' H. exact (Hle (k', v') H).
Qed.

Definition run_hot : dict Q :=
  [("avg_fps"%string, 20); ("avg_inference_ms"%string, 50);
   ("avg_cpu"%string, 60); ("avg_memory"%string, 40);
   ("avg_temperature"%string, 55)].

Definition run_plain : dict Q :=
  [("avg_fps"%string, 25); ("avg_inference_ms"%string, 40);
   ("avg_cpu"%string, 70); ("avg_memory"%string, 45)].

Definition one_sided : dict run :=
  load_json_log (mk_run (Some run_plain)) "yolov11"
    (load_json_log (mk_run (Some run_hot)) "yolov8" []).

(** C7, as stated, fails: when only one of the two runs has temperature
    data the comparison still carries a temperature entry, holding that
    one model, and names it the temperature winner. *)
Lemma temperature_emitted_for_one_run :
  get run_plain "avg_temperature" = None /\
  exists c,
    compare one_sided = Ret (Some c) /\
    temperature (sys c) = Some [("yolov8"%string, 55)] /\
    get (winner c) "temperature" = Some "yolov8"%string.
Proof.
  split; [reflexivity|].
  eexists. split; [vm_compute; reflexivity|]. split; reflexivity.
Qed.

(** C7, amended: the temperature comparison appears in the result
    exactly when at least one loaded run reports a non-zero
    [avg_temperature]; it then lists the runs that report one, and the
    temperature winner is a listed model with the lowest value; when no
    run reports one there is neither a temperature entry nor a
    temperature winner. *)
Theorem temperature_comparison (results : dict run) (c : comparison) :
  compare results = Ret (Some c) ->
  (temperature (sys c) <> None <->
   exists name s v, In (name, s) (summaries_of results) /\ reports_temperature s v) /\
  (forall td,
     temperature (sys c) = Some td ->
     (forall name v,
        In (name, v) td <->
        exists s, In (name, s) (summaries_of results) /\ reports_temperature s v) /\
     exists w v,
       get (winner c) "temperature" = Some w /\ In (w, v) td /\
       forall k' v', In (k', v') td -> v <= v') /\
  (temperature (sys c) = None -> get (winner c) "temperature" = None).
Proof.
  intro H. apply compare_temperature in H.
  pose proof (truthy_column_In "avg_temperature" (summaries_of results)) as T.
  fold reports_temperature in T.
  destruct (truthy_column "avg_temperature" (summaries_of results)) as [|kv td].
  - destruct H as [Ht Hw]. rewrite Ht. split; [|split].
    + split; [congruence|]. intros (name & s & v & Hin). exfalso.
      apply (T name v). eauto.
    + discriminate.
    + auto.
  - destruct H as (Ht & w & Hmin & Hw). rewrite Ht. split; [|split].
    + split; [|discriminate]. intros _. destruct kv as [name v].
      destruct (proj1 (T name v) (or_introl eq_refl)) as (s & Hs). eauto.
    + intros td' [= <-]. split; [exact T|].
      destruct (min_key_spec kv td) as (k & v & Hk & Hin & Hle).
      exists k, v. rewrite Hw. split; [congruence|]. auto.
    + discriminate.
Qed.

Lemma temperature_comparison_witness :
  exists c,
    compare one_sided = Ret (Some c) /\
    temperature (sys c) <> None.
Proof.
  eexists. split; [vm_compute; reflexivity|].
  refine (proj2 (proj1 (@temperature_comparison one_sided _ _)) _).
  - vm_compute. reflexivity.
  - exists "yolov8"%string, run_hot, 55. split; [left; reflexivity|].
    split; [reflexivity|discriminate].
Defined.

Lemma load_two (A B : string) (a b : run) :
  A <> B ->
  load_json_log b B (load_json_log a A []) = [(A, a); (B, b)].
Proof.
  intro H. unfold load_json_log. simpl.
  apply String.eqb_neq in H. now rewrite H.
Qed.

(** The improvement entry for two models, with the first as baseline. *)
Lemma improvement_two (A B : string) (a b : Q) (lower_is_better : bool) :
  ~ a == 0 ->
  let pct := (if lower_is_better then (a - b) / a * 100 else (b - a) / a * 100) in
  _calculate_improvement [(A, a); (B, b)] lower_is_better =
  Ret (Some (mk_improvement
               (Qabs pct)
               (if lower_is_better
                then (if Qltb b a then B else A)
                else (if Qltb a b then B else A))
               (if Qltb 0 pct then "improvement" else "regression"))).
Proof.
  intros Ha pct. unfold _calculate_improvement, pct.
  destruct lower_is_better; rewrite truediv_nonzero by assumption; reflexivity.
Qed.

(** C3: with model A (20 FPS, 50 ms) loaded first and model B (25 FPS,
    40 ms) loaded second, [compare()] returns a comparison that names B
    the FPS winner and the inference winner, with an FPS improvement of
    25% and an inference improvement of 20%, both for B and both
    labelled "improvement". In general the improvement is taken from
    [(other - baseline) / baseline * 100] with the first-loaded model
    as baseline, negated for a lower-is-better metric; its magnitude is
    the percentage and its sign the direction. *)
Theorem comparator_end_to_end (A B : string) (sA sB : dict Q) :
  A <> B ->
  get sA "avg_fps" = Some 20 -> get sA "avg_inference_ms" = Some 50 ->
  get sB "avg_fps" = Some 25 -> get sB "avg_inference_ms" = Some 40 ->
  (exists c fi ii,
     compare (load_json_log (mk_run (Some sB)) B
                (load_json_log (mk_run (Some sA)) A [])) = Ret (Some c) /\
     models c = [A; B] /\
     get (winner c) "fps" = Some B /\
     get (winner c) "inference" = Some B /\
     fps_improvement (perf c) = Some fi /\
     percentage fi == 25 /\
     better_model fi = B /\
     direction fi = "improvement"%string /\
     inference_improvement (perf c) = Some ii /\
     percentage ii == 20 /\
     better_model ii = B /\
     direction ii = "improvement"%string) /\
  (forall baseline other : Q,
     ~ baseline == 0 ->
     let pct := (other - baseline) / baseline * 100 in
     (exists i,
        _calculate_improvement [(A, baseline); (B, other)] false = Ret (Some i) /\
        percentage i = Qabs pct /\
        direction i = (if Qltb 0 pct then "improvement" else "regression")%string) /\
     (exists i,
        _calculate_improvement [(A, baseline); (B, other)] true = Ret (Some i) /\
        percentage i == Qabs (- pct) /\
        direction i = (if Qltb 0 (- pct) then "improvement" else "regression")%string)).
Proof.
  intros Hne Fa Ia Fb Ib. split.
  - rewrite load_two by assumption.
    unfold compare. cbn [length Nat.ltb Nat.leb map fst snd summary column keys].
    unfold get_default. rewrite Fa, Ia, Fb, Ib.
    rewrite !improvement_two by discriminate.
    unfold max_key, min_key, best_key. cbn [bind].
    destruct (truthy_column "avg_temperature" [(A, sA); (B, sB)]);
      cbn [bind]; do 3 eexists; (split; [reflexivity|]);
      repeat split; reflexivity.
  - intros baseline other Hb pct.
    assert (Hflip : (baseline - other) / baseline * 100 == - pct)
      by (unfold pct; field; assumption).
    split; eexists; (split; [apply improvement_two; assumption|]);
      cbn [percentage direction].
    + split; reflexivity.
    + split.
      * now rewrite Hflip.
      * unfold Qltb. now rewrite Hflip.
Qed.

Lemma comparator_end_to_end_witness :
  exists c,
    compare (load_json_log (mk_run (Some run_plain)) "yolov11"
               (load_json_log (mk_run (Some run_hot)) "yolov8" [])) = Ret (Some c) /\
    get (winner c) "fps" = Some "yolov11"%string /\
    get (winner c) "inference" = Some "yolov11"%string.
Proof.
  assert (Hne : "yolov8"%string <> "yolov11"%string) by discriminate.
  destruct (proj1 (@comparator_end_to_end "yolov8" "yolov11" run_hot run_plain
                     Hne eq_refl eq_refl eq_refl eq_refl))
    as (c & fi & ii & Hc & _ & Hf & Hi & _).
  exists c. auto.
Defined.

(** The number of categories won by [model]. *)
Definition tally (model : string) (winner : dict string) : nat :=
  length (filter (fun cw => String.eqb (snd cw) model) winner).

Section TwoModels.

Variables A B : string.
Hypothesis distinct : A <> B.

Let step (wins : dict nat) (cw : string * string) : dict nat :=
  match get wins (snd cw) with
  | Some n => set wins (snd cw) (S n)
  | None => wins
  end.

Lemma tally_fold (winner : dict string) :
  forall a b,
    fold_left step winner [(A, a); (B, b)] =
    [(A, (a + tally A winner)%nat); (B, (b + tally B winner)%nat)].
Proof.
  pose proof (proj2 (String.eqb_neq A B) distinct) as D.
  assert (D' : String.eqb B A = false)
    by (rewrite String.eqb_sym; exact D).
  unfold tally.
  induction winner as [|[cat w] winner IH]; intros a b; simpl.
  - now rewrite !Nat.add_0_r.
  - unfold step at 2. simpl.
    destruct (String.eqb_spec A w) as [<-|NA].
    + rewrite String.eqb_refl, D, IH. cbn [length].
      rewrite ?Nat.add_succ_r. reflexivity.
    + destruct (String.eqb_spec B w) as [<-|NB].
      * rewrite D', String.eqb_refl, IH. cbn [length].
        rewrite ?Nat.add_succ_r. reflexivity.
      * apply String.eqb_neq in NA, NB.
        rewrite (String.eqb_sym w A), (String.eqb_sym w B), NA, NB.
        apply IH.
Qed.

Lemma count_wins_two (c : comparison) :
  models c = [A; B] ->
  count_wins c = [(A, tally A (winner c)); (B, tally B (winner c))].
Proof.
  intro Hm. unfold count_wins. rewrite Hm. simpl.
  rewrite (proj2 (String.eqb_neq A B) distinct).
  exact (tally_fold (winner c) 0 0).
Qed.

End TwoModels.

Definition run_fast : dict Q :=
  [("avg_fps"%string, 25); ("avg_inference_ms"%string, 40);
   ("avg_cpu"%string, 70); ("avg_memory"%string, 50)].

Definition run_light : dict Q :=
  [("avg_fps"%string, 20); ("avg_inference_ms"%string, 50);
   ("avg_cpu"%string, 60); ("avg_memory"%string, 45)].

Definition fast_then_light : dict run :=
  load_json_log (mk_run (Some run_light)) "yolov11"
    (load_json_log (mk_run (Some run_fast)) "yolov8" []).

Definition light_then_fast : dict run :=
  load_json_log (mk_run (Some run_fast)) "yolov8"
    (load_json_log (mk_run (Some run_light)) "yolov11" []).

(** The report printed for the comparison of [results]. *)
Definition report (results : dict run) : py assessment :=
  r <- compare results ;;
  match r with
  | Some c => print_comparison c
  | None => Raise ValueError
  end.

(** C8, as stated, fails: with two category wins each the report still
    names one overall winner, the model that was loaded first, so the
    same two runs loaded in the other order name the other model. *)
Lemma tie_goes_to_first_loaded :
  report fast_then_light =
    Ret (mk_assessment [("yolov8"%string, 2%nat); ("yolov11"%string, 2%nat)]
                       "yolov8") /\
  report light_then_fast =
    Ret (mk_assessment [("yolov11"%string, 2%nat); ("yolov8"%string, 2%nat)]
                       "yolov11").
Proof.
  split; vm_compute; reflexivity.
Qed.

(** C8, amended: for two models the report gives each model's number
    of category wins and names as overall winner the model with more
    wins; when both have the same number it names the first-loaded
    model, with no mark of the tie beyond the two equal counts. *)
Theorem overall_winner_two (c : comparison) (A B : string) :
  A <> B ->
  models c = [A; B] ->
  let a := tally A (winner c) in
  let b := tally B (winner c) in
  print_comparison c =
    Ret (mk_assessment [(A, a); (B, b)] (if (a <? b)%nat then B else A)) /\
  (forall r, print_comparison c = Ret r ->
     ((b < a)%nat -> overall_winner r = A) /\
     ((a < b)%nat -> overall_winner r = B) /\
     (a = b -> overall_winner r = A)).
Proof.
  intros Hne Hm a b.
  assert (P : print_comparison c =
              Ret (mk_assessment [(A, a); (B, b)] (if (a <? b)%nat then B else A))).
  { unfold print_comparison. rewrite (count_wins_two Hne c Hm).
    fold a b. unfold max_key_nat, best_key. cbn [bind fold_left snd fst].
    destruct (a <? b)%nat; reflexivity. }
  split; [exact P|].
  intros r Hr. rewrite P in Hr. injection Hr as <-. cbn [overall_winner].
  destruct (Nat.ltb_spec a b); repeat split; intro; try reflexivity; lia.
Qed.

Lemma overall_winner_two_witness :
  exists c,
    compare fast_then_light = Ret (Some c) /\
    print_comparison c =
      Ret (mk_assessment [("yolov8"%string, 2%nat); ("yolov11"%string, 2%nat)]
                         "yolov8").
Proof.
  eexists. split; [vm_compute; reflexivity|].
  refine (proj1 (@overall_winner_two _ "yolov8" "yolov11" _ _)).
  - discriminate.
  - reflexivity.
Defined.

End ComparatorProps.


(** * Further properties of the measurement core *)

(** ** Sums, means and bounds *)

Section Sums.




Lemma len_nonneg (l : list Q) : 0 <= len l.
Proof.
  unfold len, Qle. simpl. lia.
Qed.




End Sums.

(** ** FPSCalculator: call sequences, cumulative rate, rate bounds *)

Module FpsCallProps.

Import FPSCalculator.
Import FPSCalculatorCalls.

(** The window never grows beyond its bound. *)
Lemma deque_append_bounded (w : Z) (x : Q) (d : list Q) :
  (Z.of_nat (length d) <= w)%Z ->
  (Z.of_nat (length (deque_append w x d)) <= w)%Z.
Proof.
  intro H. unfold deque_append.
  destruct (Z.eqb_spec w 0); [assumption|]. cbv zeta.
  destruct (Z.ltb_spec w (Z.of_nat (length (d ++ [x])))) as [Hfull|Hfit];
    [|assumption].
  rewrite length_app in Hfull. simpl in Hfull.
  destruct d as [|y d]; simpl in *; [lia|].
  rewrite length_app. simpl. lia.
Qed.

(** What every call keeps: the configured size, a window within it, a
    frame count that is not negative. *)
Definition well_formed (w : Z) (c : state) : Prop :=
  window_size c = w /\
  (Z.of_nat (length (frame_times c)) <= w)%Z /\
  (0 <= frame_count c)%Z.

Lemma step_well_formed (w : Z) (k : call) (c : state) :
  well_formed w c -> exists c', step k c = Ret c' /\ well_formed w c'.
Proof.
  intros (Hw & Hb & Hc). destruct k as [now|now|]; simpl.
  - eexists. split; [reflexivity|]. repeat split; simpl; lia.
  - destruct (FpsProps.update_total now c) as [fps ->]. simpl.
    eexists. split; [reflexivity|]. repeat split; simpl; try lia.
    destruct (last_frame_time c); [|lia].
    rewrite Hw. apply deque_append_bounded. lia.
  - eexists. split; [reflexivity|]. repeat split; simpl; lia.
Qed.

Lemma run_well_formed (w : Z) (calls : list call) :
  forall c, well_formed w c -> exists c', run calls c = Ret c' /\ well_formed w c'.
Proof.
  induction calls as [|k calls IH]; intros c H; simpl.
  - eauto.
  - destruct (step_well_formed k H) as (c1 & -> & H1). simpl. auto.
Qed.

(** X1: on a constructed calculator no sequence of [start()],
    [update()] and [reset()] calls raises; the window never holds more
    than [window_size] intervals, the window size and the sign of the
    frame count are kept, and a final [reset()] gives back the state the
    constructor built. *)
Theorem window_stays_bounded (w : Z) (c0 : state) (calls : list call) :
  __init__ w = Ret c0 ->
  exists c,
    run calls c0 = Ret c /\
    window_size c = w /\
    (Z.of_nat (length (frame_times c)) <= w)%Z /\
    (0 <= frame_count c)%Z /\
    reset c = c0.
Proof.
  unfold __init__. destruct (Z.ltb_spec w 0) as [|Hw]; [discriminate|].
  intros [= <-].
  destruct (@run_well_formed w calls (mk w [] 0 None None)) as (c & Hrun & Hwf).
  { repeat split; simpl; lia. }
  destruct Hwf as (H1 & H2 & H3).
  exists c. repeat split; try assumption.
  unfold reset. now rewrite H1.
Qed.

Lemma window_stays_bounded_witness :
  exists c,
    run [Update 1; Start 2; Update 3; Update 5; Update 6; Reset; Update 9]
        (mk 2 [] 0 None None) = Ret c /\
    (Z.of_nat (length (frame_times c)) <= 2)%Z.
Proof.
  destruct (@window_stays_bounded 2 (mk 2 [] 0 None None)
              [Update 1; Start 2; Update 3; Update 5; Update 6; Reset; Update 9]
              eq_refl) as (c & Hrun & _ & Hb & _).
  exists c. split; assumption.
Defined.

Lemma updates_counts (clock : list Q) :
  forall c,
    exists c',
      updates clock c = Ret c' /\
      frame_count c' = (frame_count c + Z.of_nat (length clock))%Z /\
      start_time c' = start_time c.
Proof.
  induction clock as [|now clock IH]; intro c.
  - exists c. simpl. repeat split. lia.
  - simpl updates. destruct (FpsProps.update_total now c) as [fps ->].
    cbn [bind fst].
    match goal with |- context [updates clock ?s] =>
      destruct (IH s) as (c' & Hrun & Hc & Hs) end.
    exists c'. split; [exact Hrun|]. simpl in Hc, Hs. split; [|exact Hs].
    rewrite Hc. cbn [length]. lia.
Qed.

Lemma elapsed_pos (t0 now : Q) : 0 < now - t0 <-> t0 < now.
Proof.
  split; intro H.
  - apply Qlt_minus_iff. exact H.
  - apply Qlt_minus_iff in H. exact H.
Qed.

(** X2: after [start()] at [t0] and one [update()] per frame, the frame
    count is the number of frames and [get_average_fps()] read at a
    later time [now] is frames / (now - t0), whatever the window size; it
    is 0.0 when no frame was counted or the clock has not advanced, and
    it never raises. *)
Theorem cumulative_average (c0 : state) (t0 : Q) (clock : list Q) :
  exists c,
    updates clock (start t0 c0) = Ret c /\
    get_frame_count c = Z.of_nat (length clock) /\
    forall now,
      (clock <> [] -> t0 < now ->
       get_average_fps now c =
         Ret (inject_Z (Z.of_nat (length clock)) / (now - t0))) /\
      (clock = [] \/ ~ t0 < now -> get_average_fps now c = Ret 0).
Proof.
  destruct (updates_counts clock (start t0 c0)) as (c & Hrun & Hc & Hs).
  simpl in Hc, Hs. exists c. split; [exact Hrun|]. split; [exact Hc|].
  intro now. unfold get_average_fps. rewrite Hs, Hc. split.
  - intros Hne Hlt.
    destruct (Z.eqb_spec (Z.of_nat (length clock)) 0) as [E|_].
    { destruct clock; [congruence|simpl in E; lia]. }
    cbv zeta. apply elapsed_pos in Hlt.
    rewrite (proj2 (Qltb_iff _ _) Hlt).
    apply truediv_nonzero. intro Z. rewrite Z in Hlt. exact (Qlt_irrefl _ Hlt).
  - intros [->|Hge]; [reflexivity|].
    destruct (Z.of_nat (length clock) =? 0)%Z; [reflexivity|]. cbv zeta.
    rewrite (proj2 (Qltb_false_iff _ _)); [reflexivity|].
    intro H. apply Hge. now apply elapsed_pos.
Qed.




End FpsCallProps.

(** ** InferenceTimer: paired calls and statistics *)

Module TimerStatsProps.

Import InferenceTimer.

(** One timed operation: [start()] read at the first clock value,
    [stop()] at the second. *)
Definition bracket (p : Q * Q) : list call := [Start (fst p); Stop (snd p)].

Definition duration (p : Q * Q) : Q := snd p - fst p.

Lemma run_brackets (pairs : list (Q * Q)) :
  forall self,
    start_time self = None ->
    run (flat_map bracket pairs) self =
    mk None (times self ++ map duration pairs).
Proof.
  unfold run.
  induction pairs as [|p pairs IH]; intros [st l] H; simpl in *.
  - subst. now rewrite app_nil_r.
  - rewrite IH by reflexivity. simpl. now rewrite <- app_assoc.
Qed.

Lemma last_map_cons {A B : Type} (f : A -> B) (l : list A) :
  forall (x : A) (d : B) (d' : A),
    last (map f (x :: l)) d = f (last (x :: l) d').
Proof.
  induction l as [|a l IH]; intros x d d'; [reflexivity|].
  change (last (map f (a :: l)) d = f (last (a :: l) d')). apply IH.
Qed.

(** X4: N paired [start()]/[stop()] calls on a new timer record exactly
    the N durations, in order, and leave nothing pending; the count is N,
    the last time is the last duration and the average is their mean. *)
Theorem paired_calls_record_durations (pairs : list (Q * Q)) :
  let timer := run (flat_map bracket pairs) __init__ in
  times timer = map duration pairs /\
  start_time timer = None /\
  get_count timer = length pairs /\
  get_last_time timer =
    match pairs with
    | [] => PyNone
    | p :: _ => PyFloat (duration (last pairs p))
    end /\
  get_average timer =
    match pairs with
    | [] => Ret (PyFloat 0)
    | _ :: _ =>
        Ret (PyFloat (sum (map duration pairs) / len (map duration pairs)))
    end.
Proof.
  cbv zeta. rewrite run_brackets by reflexivity. simpl times.
  split; [reflexivity|]. split; [reflexivity|].
  split; [unfold get_count; simpl; apply length_map|].
  destruct pairs as [|p pairs]; [repeat split|].
  split.
  - unfold get_last_time. cbn [times app].
    change (map duration (p :: pairs)) with (duration p :: map duration pairs).
    cbv iota. f_equal.
    change (duration p :: map duration pairs) with (map duration (p :: pairs)).
    apply last_map_cons.
  - unfold get_average. cbn [times app map].
    rewrite truediv_nonzero by apply len_nonzero. reflexivity.
Qed.



End TimerStatsProps.

(** ** SystemMonitor: failures of the telemetry sources *)

Module MonitorFailureProps.

Import SystemMonitor.
Import SystemMonitorTemp.


Lemma index_raises_IndexError {A : Type} (l : list A) (i : nat) (e : pyexn) :
  index l i = Raise e -> e = IndexError.
Proof.
  unfold index. destruct (nth_error l i); [discriminate|]. now intros [= <-].
Qed.


Section CpuTemp.

Variable float : string -> py Q.

(** [float()] raises nothing but [ValueError]. *)
Hypothesis float_raises : forall s e, float s = Raise e -> e = ValueError.

Lemma vcgencmd_temp_raises (returncode : Z) (stdout : string) (e : pyexn) :
  vcgencmd_temp float (Completed returncode stdout) = Raise e -> caught e = true.
Proof.
  unfold vcgencmd_temp. destruct (returncode =? 0)%Z; [|discriminate].
  destruct (index (split "=" (strip stdout)) 1) as [field|e1] eqn:E1; cbn [bind].
  2:{ intros [= <-]. now rewrite (index_raises_IndexError _ _ E1). }
  destruct (index (split "'" field) 0) as [number|e2] eqn:E2; cbn [bind].
  2:{ intros [= <-]. now rewrite (index_raises_IndexError _ _ E2). }
  destruct (float number) as [t|e3] eqn:E3; cbn [bind]; [discriminate|].
  intros [= <-]. now rewrite (@float_raises _ _ E3).
Qed.

Lemma thermal_zone_total (text : string) :
  exists r,
    match thermal_zone_temp float (Content text) with
    | Raise e => if caught_zone e then Ret None else Raise e
    | x => x
    end = Ret r /\
    (forall milli, float (strip text) = Ret milli -> r = Some (milli / 1000)) /\
    (forall e, float (strip text) = Raise e -> r = None).
Proof.
  unfold thermal_zone_temp.
  destruct (float (strip text)) as [milli|e] eqn:E; cbn [bind].
  - rewrite truediv_nonzero by discriminate. cbn [bind].
    eexists. split; [reflexivity|]. split; [now intros ? [= <-]|discriminate].
  - rewrite (@float_raises _ _ E). cbn [caught_zone].
    exists None. split; [reflexivity|]. split; [discriminate|reflexivity].
Qed.

(** X7: with a command that completes and a thermal zone file that can
    be read, [get_cpu_temp()] does not raise. A temperature parsed from
    [vcgencmd] is returned whatever the thermal zone holds; otherwise the
    thermal zone value divided by 1000 is returned, and [None] when that
    text is not a number; off a Raspberry Pi the result is [None]. *)
Theorem cpu_temp_fallback (is_raspberry_pi : bool) (returncode : Z)
        (stdout text : string) :
  exists r,
    get_cpu_temp float is_raspberry_pi (Completed returncode stdout) (Content text)
      = Ret r /\
    (is_raspberry_pi = false -> r = None) /\
    (is_raspberry_pi = true ->
     match vcgencmd_temp float (Completed returncode stdout) with
     | Ret (Some temp) => r = Some temp
     | _ =>
         (forall milli, float (strip text) = Ret milli -> r = Some (milli / 1000)) /\
         (forall e, float (strip text) = Raise e -> r = None)
     end).
Proof.
  unfold get_cpu_temp. destruct is_raspberry_pi; cbn [negb].
  2:{ exists None. repeat split; auto; discriminate. }
  cbv zeta. destruct (thermal_zone_total text) as (rz & Hz & Hm & He).
  destruct (vcgencmd_temp float (Completed returncode stdout)) as [[temp|]|e] eqn:E.
  - exists (Some temp). repeat split; auto; discriminate.
  - exists rz. split; [exact Hz|]. split; [discriminate|auto].
  - rewrite (vcgencmd_temp_raises _ _ E).
    exists rz. split; [exact Hz|]. split; [discriminate|auto].
Qed.

End CpuTemp.

(** A stand-in for [float()] that reads unsigned whole numbers and raises
    [ValueError] on anything else. *)
Fixpoint decimal (acc : Z) (s : string) : option Z :=
  match s with
  | EmptyString => Some acc
  | String c s' =>
      let n := Z.of_nat (nat_of_ascii c) in
      if ((48 <=? n) && (n <=? 57))%Z then decimal (10 * acc + (n - 48)) s'
      else None
  end.

Definition whole_number (s : string) : py Q :=
  match s with
  | EmptyString => Raise ValueError
  | String _ _ =>
      match decimal 0 s with
      | Some v => Ret (inject_Z v)
      | None => Raise ValueError
      end
  end.

Lemma cpu_temp_fallback_witness :
  get_cpu_temp whole_number true (Completed 1 "") (Content "42000") =
  Ret (Some (inject_Z 42000 / 1000)).
Proof.
  assert (R : forall s e, whole_number s = Raise e -> e = ValueError).
  { intros s e. unfold whole_number.
    destruct s; [now intros [= <-]|].
    destruct (decimal 0 _); [discriminate|now intros [= <-]]. }
  destruct (@cpu_temp_fallback whole_number R true 1 "" "42000")
    as (r & Hr & _ & Hpi).
  rewrite Hr. f_equal. exact (proj1 (Hpi eq_refl) _ eq_refl).
Defined.

End MonitorFailureProps.

(** ** The summary of a run: values, order, throttle events *)

Module SummaryOrderProps.

Import YOLOv8Benchmark.

(** The entries of the summary, one by one, for every buffer. *)
Lemma summary_values (now : Q) (fps_calc : FPSCalculator.state)
      (buf : list MetricRecord) :
  exists s a lo_fps hi_fps avg_inf lo_inf hi_inf avg_cpu hi_cpu avg_mem hi_mem,
    _write_summary now fps_calc buf = Ret s /\
    (FPSCalculator.get_average_fps now fps_calc = Ret a /\
     if_nonempty (collect fps buf) py_min = Ret lo_fps /\
     if_nonempty (collect fps buf) py_max = Ret hi_fps /\
     if_nonempty (collect inference_time buf)
       (fun l => a <- mean l ;; Ret (a * 1000)) = Ret avg_inf /\
     if_nonempty (collect inference_time buf)
       (fun l => a <- py_min l ;; Ret (a * 1000)) = Ret lo_inf /\
     if_nonempty (collect inference_time buf)
       (fun l => a <- py_max l ;; Ret (a * 1000)) = Ret hi_inf /\
     if_nonempty (collect cpu_percent buf) mean = Ret avg_cpu /\
     if_nonempty (collect cpu_percent buf) py_max = Ret hi_cpu /\
     if_nonempty (collect memory_percent buf) mean = Ret avg_mem /\
     if_nonempty (collect memory_percent buf) py_max = Ret hi_mem) /\
    (get s "total_frames" = Some (inject_Z (FPSCalculator.frame_count fps_calc)) /\
     get s "avg_fps" = Some a /\
     get s "min_fps" = Some lo_fps /\
     get s "max_fps" = Some hi_fps /\
     get s "avg_inference_ms" = Some avg_inf /\
     get s "min_inference_ms" = Some lo_inf /\
     get s "max_inference_ms" = Some hi_inf /\
     get s "avg_cpu" = Some avg_cpu /\
     get s "max_cpu" = Some hi_cpu /\
     get s "avg_memory" = Some avg_mem /\
     get s "max_memory" = Some hi_mem /\
     get s "throttle_events" =
       Some (inject_Z (Z.of_nat (length (filter is_throttled buf))))) /\
    match collect temperature buf with
    | [] =>
        get s "avg_temperature" = None /\
        get s "max_temperature" = None /\
        get s "temp_rise" = None
    | first :: rest =>
        exists M,
          is_max (first :: rest) M /\
          get s "avg_temperature" =
            Some (sum (first :: rest) / len (first :: rest)) /\
          get s "max_temperature" = Some M /\
          get s "temp_rise" = Some (M - first)
    end.
Proof.
  unfold _write_summary. cbv zeta.
  destruct (SummaryProps.get_average_fps_total now fps_calc) as [a Ha].
  destruct (SummaryProps.min_entry (collect fps buf)) as (r1 & H1 & _).
  destruct (SummaryProps.max_entry (collect fps buf)) as (r2 & H2 & _).
  destruct (SummaryProps.mean_ms_entry (collect inference_time buf)) as (r3 & H3 & _).
  destruct (SummaryProps.min_ms_entry (collect inference_time buf)) as (r4 & H4 & _).
  destruct (SummaryProps.max_ms_entry (collect inference_time buf)) as (r5 & H5 & _).
  destruct (SummaryProps.mean_entry (collect cpu_percent buf)) as (r6 & H6 & _).
  destruct (SummaryProps.max_entry (collect cpu_percent buf)) as (r7 & H7 & _).
  destruct (SummaryProps.mean_entry (collect memory_percent buf)) as (r8 & H8 & _).
  destruct (SummaryProps.max_entry (collect memory_percent buf)) as (r9 & H9 & _).
  rewrite Ha, H1, H2, H3, H4, H5, H6, H7, H8, H9. cbn [bind].
  destruct (collect temperature buf) as [|t0 temps] eqn:Et.
  - eexists. exists a, r1, r2, r3, r4, r5, r6, r7, r8, r9.
    split; [reflexivity|]. split; [repeat split; assumption|].
    split; [repeat split|]. repeat split.
  - rewrite SummaryProps.mean_total.
    destruct (py_max_spec t0 temps) as (M & -> & HM). cbn [bind].
    eexists. exists a, r1, r2, r3, r4, r5, r6, r7, r8, r9.
    split; [reflexivity|]. split; [repeat split; assumption|].
    split; [repeat split|].
    exists M. split; [exact HM|]. repeat split.
Qed.

Section Ordered.

Variable l : list Q.




End Ordered.



End SummaryOrderProps.

(** ** The metrics buffer: what each kind of record feeds *)

Module BufferProps.

Import MetricsBuffer.

(** One call that appends to the buffer. *)
Inductive entry : Type :=
| Inference (now : Q) (frame_num : Z) (inference_time fps : Q)
| Snapshot (s : snapshot).

Definition ingest (buf : list MetricRecord) (e : entry) : list MetricRecord :=
  match e with
  | Inference now frame_num inference_time fps =>
      log_inference now frame_num inference_time fps buf
  | Snapshot s => log_system_snapshot s buf
  end.

Definition ingest_all (entries : list entry) : list MetricRecord :=
  fold_left ingest entries [].

(** The record an entry appends. *)
Definition record_of (e : entry) : MetricRecord :=
  match e with
  | Inference now frame_num inference_time fps =>
      mk_metric (Some now) (Some frame_num) (Some inference_time) (Some fps)
                None None None None None
  | Snapshot s => snapshot_metric s
  end.

Definition inferences (entries : list entry) : list (Z * Q * Q) :=
  flat_map (fun e => match e with
                     | Inference _ n t f => [(n, t, f)]
                     | Snapshot _ => []
                     end) entries.

Definition snapshots (entries : list entry) : list snapshot :=
  flat_map (fun e => match e with
                     | Inference _ _ _ _ => []
                     | Snapshot s => [s]
                     end) entries.

(** A snapshot that reports throttling or under-voltage at that
    moment. *)
Definition throttle_event (s : snapshot) : bool :=
  match snap_throttling s with
  | Some t => SystemMonitor.throttled_now t || SystemMonitor.under_voltage_now t
  | None => false
  end.

Fixpoint somes {A : Type} (l : list (option A)) : list A :=
  match l with
  | [] => []
  | Some a :: r => a :: somes r
  | None :: r => somes r
  end.

Lemma ingest_all_records (entries : list entry) :
  ingest_all entries = map record_of entries.
Proof.
  unfold ingest_all.
  assert (G : forall buf, fold_left ingest entries buf = buf ++ map record_of entries).
  { induction entries as [|e entries IH]; intro buf; simpl.
    - now rewrite app_nil_r.
    - rewrite IH. destruct e; unfold ingest, log_inference, log_metric,
        log_system_snapshot; simpl; now rewrite <- app_assoc. }
  apply G.
Qed.

(** X9: the buffer holds one record per logging call, in call order.
    The FPS and inference-time statistics see exactly the values passed
    to [log_inference], the CPU, memory and temperature statistics
    exactly those of the snapshots (a snapshot without a temperature adds
    none), and the throttled records are the snapshots that report
    throttling or under-voltage at that moment. *)
Theorem records_feed_their_own_statistics (entries : list entry) :
  let buf := ingest_all entries in
  length buf = length entries /\
  collect fps buf = map snd (inferences entries) /\
  collect inference_time buf = map (fun x => snd (fst x)) (inferences entries) /\
  map frame (filter (fun m => match fps m with Some _ => true | None => false end) buf)
    = map (fun x => Some (fst (fst x))) (inferences entries) /\
  collect cpu_percent buf = map snap_cpu_overall (snapshots entries) /\
  collect memory_percent buf = map snap_memory_percent (snapshots entries) /\
  collect temperature buf = somes (map snap_temperature (snapshots entries)) /\
  length (filter is_throttled buf) =
    length (filter throttle_event (snapshots entries)).
Proof.
  cbv zeta. rewrite ingest_all_records.
  split; [apply length_map|].
  induction entries as [|e entries (I1 & I2 & I3 & I4 & I5 & I6 & I7)];
    [repeat split|].
  destruct e as [now n t f|s]; unfold inferences, snapshots in *; simpl.
  - rewrite I1, I2, I3, I4, I5, I6, I7. repeat split.
  - rewrite I1, I2, I3, I4, I5. repeat split.
    + destruct (snap_temperature s); simpl; now rewrite I6.
    + unfold is_throttled at 1, throttle_event at 1. simpl.
      destruct (snap_throttling s) as [t|]; [|exact I7].
      destruct (_ || _); simpl; now rewrite I7.
Qed.

Lemma throttled_records (entries : list entry) :
  filter is_throttled (map record_of entries) =
  map snapshot_metric (filter throttle_event (snapshots entries)).
Proof.
  unfold snapshots.
  induction entries as [|[now n t f|s] entries IH]; simpl; [reflexivity|exact IH|].
  unfold is_throttled at 1, throttle_event at 1. simpl.
  destruct (snap_throttling s) as [t|]; [|exact IH].
  destruct (_ || _); simpl; now rewrite IH.
Qed.

(** X10: the [throttle_events] entry of the summary is the number of
    logged snapshots whose status reports throttling or under-voltage at
    that moment, that is, whose status word has bit 2 or bit 0 set;
    frequency capping, the soft temperature limit and the
    has-occurred bits do not make a throttle event, and neither does a
    snapshot without a status. *)
Theorem throttle_events_count_active_bits (now : Q)
        (fps_calc : FPSCalculator.state) (entries : list entry) :
  (exists s,
     YOLOv8Benchmark._write_summary now fps_calc (ingest_all entries) = Ret s /\
     get s "throttle_events" =
       Some (inject_Z (Z.of_nat (length (filter throttle_event (snapshots entries)))))) /\
  (forall t cpu mem load temp hex v,
     throttle_event
       (mk_snapshot t cpu mem load temp (Some (SystemMonitor.decode hex v)))
     = Z.testbit v 2 || Z.testbit v 0) /\
  (forall t cpu mem load temp,
     throttle_event (mk_snapshot t cpu mem load temp None) = false).
Proof.
  split; [|split; [|reflexivity]].
  - destruct (SummaryOrderProps.summary_values now fps_calc (ingest_all entries))
      as (s & a & r1 & r2 & r3 & r4 & r5 & r6 & r7 & r8 & r9 & Hs & _ & Hg & _).
    exists s. split; [exact Hs|].
    destruct Hg as (_ & _ & _ & _ & _ & _ & _ & _ & _ & _ & _ & Gt).
    rewrite Gt, ingest_all_records, throttled_records, length_map. reflexivity.
  - intros. unfold throttle_event, SystemMonitor.decode. simpl.
    f_equal.
    + exact (@MonitorProps.flag_testbit v 2 ltac:(lia)).
    + exact (@MonitorProps.flag_testbit v 0 ltac:(lia)).
Qed.

End BufferProps.

(** ** The loop of run_image_benchmark *)

Module LoopProps.

Import ImageBenchmark.

Definition duration (o : observed) : Q := t_stop o - t_start o.

(** The iterations, numbered from [i + 1], whose number is a multiple of
    ten. *)
Fixpoint tenth (i : nat) (seen : list observed) : list (nat * observed) :=
  match seen with
  | [] => []
  | o :: seen' =>
      if ((i + 1) mod 10 =? 0)%nat then (i + 1, o)%nat :: tenth (S i) seen'
      else tenth (S i) seen'
  end.

Definition has_fps (m : MetricRecord) : bool :=
  match fps m with
  | Some _ => true
  | None => false
  end.

Lemma collect_app (f : MetricRecord -> option Q) (a b : list MetricRecord) :
  collect f (a ++ b) = collect f a ++ collect f b.
Proof.
  induction a as [|m a IH]; simpl; [reflexivity|].
  destruct (f m); simpl; now rewrite IH.
Qed.

Lemma monitored_appended (snaps : list snapshot) :
  forall buf,
    fold_left (fun b snap => MetricsBuffer.log_system_snapshot snap b) snaps buf =
    buf ++ map MetricsBuffer.snapshot_metric snaps.
Proof.
  induction snaps as [|s snaps IH]; intro buf; simpl.
  - now rewrite app_nil_r.
  - rewrite IH. unfold MetricsBuffer.log_system_snapshot.
    now rewrite <- app_assoc.
Qed.

Lemma snapshots_have_no_fps (f : MetricRecord -> option Q) (snaps : list snapshot) :
  (forall s, f (MetricsBuffer.snapshot_metric s) = None) ->
  collect f (map MetricsBuffer.snapshot_metric snaps) = [].
Proof.
  intro H. induction snaps as [|s snaps IH]; simpl; [reflexivity|].
  now rewrite H.
Qed.

Lemma snapshots_filtered (snaps : list snapshot) :
  filter has_fps (map MetricsBuffer.snapshot_metric snaps) = [].
Proof.
  induction snaps as [|s snaps IH]; simpl; [reflexivity|exact IH].
Qed.

Lemma snapshots_cpu (snaps : list snapshot) :
  collect cpu_percent (map MetricsBuffer.snapshot_metric snaps) =
  map snap_cpu_overall snaps.
Proof.
  induction snaps as [|s snaps IH]; simpl; [reflexivity|now rewrite IH].
Qed.

(** What the iterations from number [i] on do to the loop state. *)
Lemma loop_spec (seen : list observed) :
  forall (i : nat) (s : loop_state),
    exists s',
      loop i seen s = Ret s' /\
      FPSCalculator.frame_count (fps_calc s') =
        (FPSCalculator.frame_count (fps_calc s) + Z.of_nat (length seen))%Z /\
      FPSCalculator.start_time (fps_calc s') =
        FPSCalculator.start_time (fps_calc s) /\
      InferenceTimer.times (inference_timer s') =
        InferenceTimer.times (inference_timer s) ++ map duration seen /\
      collect inference_time (metrics_buffer s') =
        collect inference_time (metrics_buffer s) ++
        map (fun io => duration (snd io)) (tenth i seen) /\
      map frame (filter has_fps (metrics_buffer s')) =
        map frame (filter has_fps (metrics_buffer s)) ++
        map (fun io => Some (Z.of_nat (fst io))) (tenth i seen) /\
      collect cpu_percent (metrics_buffer s') =
        collect cpu_percent (metrics_buffer s) ++
        map snap_cpu_overall (flat_map monitored seen).
Proof.
  induction seen as [|o seen IH]; intros i s.
  - exists s. simpl. rewrite !app_nil_r. repeat split. lia.
  - simpl loop. unfold iteration.
    destruct (FpsProps.update_total (t_update o) (fps_calc s)) as [rate ->].
    cbn [bind fst snd]. unfold InferenceTimer.stop, InferenceTimer.start.
    cbn [InferenceTimer.start_time InferenceTimer.times fst snd].
    rewrite monitored_appended.
    match goal with |- context [loop (S i) seen ?st] =>
      destruct (IH (S i) st) as (s' & Hrun & Hc & Hs & Ht & Hi & Hf & Hcpu) end.
    exists s'. split; [exact Hrun|].
    cbn [fps_calc inference_timer metrics_buffer FPSCalculator.frame_count
         FPSCalculator.start_time InferenceTimer.times] in Hc, Hs, Ht, Hi, Hf, Hcpu.
    split; [rewrite Hc; cbn [length]; lia|].
    split; [exact Hs|].
    split; [rewrite Ht, <- app_assoc; reflexivity|].
    cbn [tenth flat_map]. rewrite Hi, Hf, Hcpu. clear.
    destruct ((i + 1) mod 10 =? 0)%nat;
      unfold MetricsBuffer.log_inference, MetricsBuffer.log_metric;
      rewrite ?collect_app, ?filter_app, ?map_app, ?snapshots_filtered,
        ?snapshots_cpu,
        ?(snapshots_have_no_fps inference_time) by reflexivity;
      cbn [collect filter map has_fps fps inference_time cpu_percent frame
           app fst snd];
      rewrite ?app_nil_r, <- ?app_assoc; repeat split.
Qed.

Definition multiple_of_ten (j : nat) : bool := (j mod 10 =? 0)%nat.

Lemma tenth_numbers (seen : list observed) :
  forall i,
    map fst (tenth i seen) = filter multiple_of_ten (seq (i + 1) (length seen)).
Proof.
  induction seen as [|o seen IH]; intro i; [reflexivity|].
  cbn [tenth length seq filter]. unfold multiple_of_ten at 1.
  replace (S (i + 1)) with (S i + 1)%nat by lia.
  destruct ((i + 1) mod 10 =? 0)%nat; cbn [map fst]; now rewrite IH.
Qed.

(** Quotient and remainder by ten of [n] and [S n], for [lia]. *)
Ltac tens n :=
  pose proof (Nat.div_mod_eq n 10); pose proof (Nat.div_mod_eq (S n) 10);
  pose proof (Nat.mod_upper_bound n 10); pose proof (Nat.mod_upper_bound (S n) 10);
  lia.

Lemma multiples_up_to (n : nat) :
  filter multiple_of_ten (seq 1 n) = map (fun k => 10 * k)%nat (seq 1 (n / 10)).
Proof.
  induction n as [|n IH]; [reflexivity|].
  rewrite seq_S, filter_app, IH. cbn [filter]. unfold multiple_of_ten.
  change (1 + n)%nat with (S n).
  destruct (Nat.eqb_spec (S n mod 10) 0) as [E|E].
  - replace (S n / 10)%nat with (S (n / 10)) by tens n.
    rewrite seq_S, map_app. cbn [map]. f_equal. f_equal. tens n.
  - replace (S n / 10)%nat with (n / 10)%nat by tens n.
    now rewrite app_nil_r.
Qed.


Lemma average_of_count (c : FPSCalculator.state) (now t0 : Q) (k : nat) :
  FPSCalculator.start_time c = Some t0 ->
  FPSCalculator.frame_count c = Z.of_nat k ->
  k <> 0%nat -> t0 < now ->
  FPSCalculator.get_average_fps now c = Ret (inject_Z (Z.of_nat k) / (now - t0)).
Proof.
  intros Hs Hc Hk Hlt. unfold FPSCalculator.get_average_fps. rewrite Hs, Hc.
  destruct (Z.eqb_spec (Z.of_nat k) 0); [lia|]. cbv zeta.
  apply FpsCallProps.elapsed_pos in Hlt.
  rewrite (proj2 (Qltb_iff _ _) Hlt).
  apply truediv_nonzero. intro Z. rewrite Z in Hlt. exact (Qlt_irrefl _ Hlt).
Qed.

(** X11: a run of [run_image_benchmark] over n iterations returns a
    summary without raising. The summary's [total_frames] is n and the
    timer holds the n inference durations in order; the logger receives
    an inference record for the iterations 10, 20, ... only, so n / 10 of
    them, each with that iteration's duration, whatever snapshots the
    monitoring thread interleaves; the CPU statistics see every
    snapshot; and when the clock has advanced, [avg_fps] is
    n / (end - start). *)
Theorem image_benchmark_counts (t0 : Q) (seen : list observed)
        (trailing : list snapshot) (t_end : Q) :
  exists st summary,
    run_image_benchmark t0 seen trailing t_end = Ret (st, summary) /\
    get summary "total_frames" = Some (inject_Z (Z.of_nat (length seen))) /\
    InferenceTimer.times (inference_timer st) = map duration seen /\
    InferenceTimer.get_count (inference_timer st) = length seen /\
    map frame (filter has_fps (metrics_buffer st)) =
      map (fun k => Some (Z.of_nat (10 * k))) (seq 1 (length seen / 10)) /\
    collect inference_time (metrics_buffer st) =
      map (fun io => duration (snd io)) (tenth 0 seen) /\
    length (collect inference_time (metrics_buffer st)) = (length seen / 10)%nat /\
    collect cpu_percent (metrics_buffer st) =
      map snap_cpu_overall (flat_map monitored seen ++ trailing) /\
    (seen <> [] -> t0 < t_end ->
     get summary "avg_fps" =
       Some (inject_Z (Z.of_nat (length seen)) / (t_end - t0))).
Proof.
  unfold run_image_benchmark. cbv zeta.
  match goal with |- context [loop 0 seen ?s0] =>
    destruct (loop_spec seen 0 s0) as (s & -> & Hc & Hs & Ht & Hi & Hf & Hcpu) end.
  cbn [bind fps_calc inference_timer metrics_buffer FPSCalculator.frame_count
       FPSCalculator.start_time FPSCalculator.start InferenceTimer.times
       InferenceTimer.__init__ collect filter map app] in *.
  rewrite monitored_appended.
  match goal with |- context [YOLOv8Benchmark._write_summary ?t ?c ?b] =>
    destruct (SummaryOrderProps.summary_values t c b)
      as (sm & a & r1 & r2 & r3 & r4 & r5 & r6 & r7 & r8 & r9 & -> & Hv & Hg & _) end.
  cbn [bind]. exists (mk_loop (inference_timer s) (fps_calc s)
                        (metrics_buffer s ++ map MetricsBuffer.snapshot_metric trailing)), sm.
  cbn [inference_timer metrics_buffer].
  assert (Hfr : map (fun io : nat * observed => Some (Z.of_nat (fst io))) (tenth 0 seen) =
                map (fun k => Some (Z.of_nat (10 * k))) (seq 1 (length seen / 10))).
  { rewrite <- (map_map fst (fun j => Some (Z.of_nat j))), tenth_numbers.
    change (0 + 1)%nat with 1%nat. rewrite multiples_up_to, map_map. reflexivity. }
  assert (Hlen : length (tenth 0 seen) = (length seen / 10)%nat).
  { rewrite <- (length_map fst), tenth_numbers. change (0 + 1)%nat with 1%nat.
    rewrite multiples_up_to, length_map, length_seq. reflexivity. }
  split; [reflexivity|].
  split; [destruct Hg as (G & _); rewrite G, Hc; do 2 f_equal; lia|].
  split; [exact Ht|].
  split; [unfold InferenceTimer.get_count; rewrite Ht; apply length_map|].
  split; [rewrite filter_app, map_app, snapshots_filtered, Hf, app_nil_r; exact Hfr|].
  split; [rewrite collect_app, (snapshots_have_no_fps inference_time) by reflexivity;
          rewrite app_nil_r; exact Hi|].
  split; [rewrite collect_app, (snapshots_have_no_fps inference_time) by reflexivity;
          rewrite app_nil_r, Hi, length_map; exact Hlen|].
  split; [rewrite collect_app, snapshots_cpu, Hcpu, map_app; reflexivity|].
  intros Hne Hlt. destruct Hg as (_ & G & _). rewrite G. f_equal.
  destruct Hv as (Ha & _).
  rewrite (@average_of_count (fps_calc s) t_end t0 (length seen)) in Ha.
  - now injection Ha.
  - exact Hs.
  - rewrite Hc. lia.
  - destruct seen; [congruence|discriminate].
  - exact Hlt.
Qed.

End LoopProps.

(** ** BenchmarkComparator: loading, errors and winners *)

Module ComparatorMoreProps.

Import BenchmarkComparator.

(** [max_key] returns a key whose value no other value exceeds. *)
Lemma max_key_spec (kv : string * Q) (r : dict Q) :
  exists k v,
    max_key (kv :: r) = Ret k /\
    In (k, v) (kv :: r) /\
    forall k' v', In (k', v') (kv :: r) -> v' <= v.
Proof.
  unfold max_key, best_key.
  set (f := fun m y : string * Q => if Qltb (snd m) (snd y) then y else m).
  assert (F : forall r x,
             In (fold_left f r x) (x :: r) /\
             forall y, In y (x :: r) -> snd y <= snd (fold_left f r x)).
  { clear. intro r. induction r as [|y r IH]; intro x; simpl.
    - split; [auto|]. intros z [<-|[]]. apply Qle_refl.
    - destruct (IH (f x y)) as [Hin Hle].
      assert (Hf : (f x y = x \/ f x y = y) /\
                   snd x <= snd (f x y) /\ snd y <= snd (f x y)).
      { unfold f. destruct (Qltb (snd x) (snd y)) eqn:E.
        - apply Qltb_iff in E. repeat split; auto using Qlt_le_weak, Qle_refl.
        - apply Qltb_false_iff in E.
          repeat split; auto using Qnot_lt_le, Qle_refl. }
      destruct Hf as (Hsel & Hx & Hy). split.
      + destruct Hin as [Hin|Hin]; [|auto].
        rewrite <- Hin. destruct Hsel as [->| ->]; auto.
      + intros z [<-|[<-|Hz]].
        * eapply Qle_trans; [exact Hx|apply Hle; left; reflexivity].
        * eapply Qle_trans; [exact Hy|apply Hle; left; reflexivity].
        * apply Hle. right. exact Hz. }
  destruct (F r kv) as [Hin Hle].
  exists (fst (fold_left f r kv)), (snd (fold_left f r kv)).
  split; [reflexivity|]. split.
  - now rewrite <- surjective_pairing.
  - intros k' v' H. exact (Hle (k', v') H).
Qed.

Section SetLaws.

Context {V : Type}.

Lemma get_set_same (d : dict V) (k : string) (v : V) : get (set d k v) k = Some v.
Proof.
  induction d as [|[k' v'] d IH]; simpl.
  - now rewrite String.eqb_refl.
  - destruct (String.eqb_spec k' k) as [->|N]; simpl.
    + now rewrite String.eqb_refl.
    + apply String.eqb_neq in N. now rewrite N.
Qed.

Lemma get_set_other (d : dict V) (k k' : string) (v : V) :
  k' <> k -> get (set d k v) k' = get d k'.
Proof.
  intro N. induction d as [|[k0 v0] d IH]; simpl.
  - apply not_eq_sym, String.eqb_neq in N. now rewrite N.
  - destruct (String.eqb_spec k0 k) as [->|N0]; simpl.
    + apply not_eq_sym, String.eqb_neq in N. now rewrite N.
    + now rewrite IH.
Qed.

Lemma keys_set (d : dict V) (k : string) (v : V) :
  keys (set d k v) =
  match get d k with
  | Some _ => keys d
  | None => keys d ++ [k]
  end.
Proof.
  unfold keys. induction d as [|[k' v'] d IH]; simpl; [reflexivity|].
  destruct (String.eqb_spec k' k) as [->|N]; simpl; [reflexivity|].
  rewrite IH. now destruct (get d k).
Qed.

Lemma get_None_not_key (d : dict V) (k : string) :
  get d k = None -> ~ In k (keys d).
Proof.
  unfold keys. induction d as [|[k' v'] d IH]; simpl; [tauto|].
  destruct (String.eqb_spec k' k) as [->|N]; [discriminate|].
  intros H [E|Hin]; [contradiction|]. exact (IH H Hin).
Qed.

End SetLaws.

(** X12: [load_json_log] is an insertion into a dictionary keyed by
    model name: the loaded data is what the name then maps to, other
    names are untouched, a name already loaded keeps its place in the
    model order and a new name goes last, and model names never
    repeat. *)
Theorem load_keeps_one_entry_per_model (results : dict run) (name : string)
        (data : run) :
  let results' := load_json_log data name results in
  get results' name = Some data /\
  (forall other, other <> name -> get results' other = get results other) /\
  keys results' =
    (match get results name with
     | Some _ => keys results
     | None => keys results ++ [name]
     end) /\
  (NoDup (keys results) -> NoDup (keys results')).
Proof.
  cbv zeta. unfold load_json_log.
  split; [apply get_set_same|]. split; [intros; now apply get_set_other|].
  split; [apply keys_set|].
  intro H. rewrite keys_set. destruct (get results name) eqn:G; [exact H|].
  apply NoDup_app; [exact H|repeat constructor; intros []|].
  intros k Hin [<-|[]]. exact (get_None_not_key _ _ G Hin).
Qed.

(** X13: [compare()] gives the empty result exactly when fewer than two
    runs are loaded; with two or more it either returns a comparison
    whose model list is the loaded names in load order, or raises. *)
Theorem empty_comparison_iff_too_few (results : dict run) :
  (compare results = Ret None <-> (length results < 2)%nat) /\
  (forall c, compare results = Ret (Some c) ->
             (2 <= length results)%nat /\ models c = keys results).
Proof.
  unfold compare. destruct (Nat.ltb_spec (length results) 2) as [Hlt|Hge].
  - split; [tauto|discriminate].
  - cbv zeta. split.
    + split; [|lia]. intro H. exfalso. ComparatorProps.bind_inv H.
      destruct (truthy_column _ _); [discriminate|].
      ComparatorProps.bind_inv H. discriminate.
    + intros c H. split; [exact Hge|]. ComparatorProps.bind_inv H.
      destruct (truthy_column _ _).
      * now injection H as <-.
      * ComparatorProps.bind_inv H. now injection H as <-.
Qed.

(** The baseline values that [compare] divides by. *)
Definition baseline (key : string) (data : run) : Q :=
  get_default (match summary data with Some s => s | None => [] end) key 0.







(** A model with the greatest value of a column. *)
Definition is_highest (column : dict Q) (w : string) : Prop :=
  exists v, In (w, v) column /\ forall k' v', In (k', v') column -> v' <= v.

(** A model with the least value of a column. *)
Definition is_lowest (column : dict Q) (w : string) : Prop :=
  exists v, In (w, v) column /\ forall k' v', In (k', v') column -> v <= v'.

Lemma max_key_highest (d : dict Q) (w : string) :
  max_key d = Ret w -> is_highest d w.
Proof.
  destruct d as [|kv r]; [discriminate|].
  destruct (max_key_spec kv r) as (k & v & -> & Hin & Hle).
  intros [= <-]. exists v. auto.
Qed.

Lemma min_key_lowest (d : dict Q) (w : string) :
  min_key d = Ret w -> is_lowest d w.
Proof.
  destruct d as [|kv r]; [discriminate|].
  destruct (ComparatorProps.min_key_spec kv r) as (k & v & -> & Hin & Hle).
  intros [= <-]. exists v. auto.
Qed.

(** X16: in every comparison that [compare()] returns, for any number
    of runs, the per-model columns hold each run's summary value (0 when
    the summary lacks it), the FPS winner is a model with the highest
    [avg_fps], and the inference, CPU and memory winners are models with
    the lowest [avg_inference_ms], [avg_cpu] and [avg_memory]. *)
Theorem winners_are_extremal (results : dict run) (c : comparison) :
  compare results = Ret (Some c) ->
  let summaries := ComparatorProps.summaries_of results in
  fps (perf c) = column "avg_fps" summaries /\
  inference_ms (perf c) = column "avg_inference_ms" summaries /\
  cpu (sys c) = column "avg_cpu" summaries /\
  memory (sys c) = column "avg_memory" summaries /\
  throttle_events (sys c) = column "throttle_events" summaries /\
  (exists w, get (winner c) "fps" = Some w /\ is_highest (fps (perf c)) w) /\
  (exists w, get (winner c) "inference" = Some w /\
             is_lowest (inference_ms (perf c)) w) /\
  (exists w, get (winner c) "cpu" = Some w /\ is_lowest (cpu (sys c)) w) /\
  (exists w, get (winner c) "memory" = Some w /\ is_lowest (memory (sys c)) w).
Proof.
  unfold compare. fold (ComparatorProps.summaries_of results).
  destruct (length results <? 2)%nat; [discriminate|].
  cbv zeta. intro H. ComparatorProps.bind_inv H.
  match goal with
  | E1 : max_key _ = Ret _, E2 : min_key (column "avg_inference_ms" _) = Ret _,
    E3 : min_key (column "avg_cpu" _) = Ret _,
    E4 : min_key (column "avg_memory" _) = Ret _ |- _ =>
      apply max_key_highest in E1; apply min_key_lowest in E2, E3, E4
  end.
  destruct (truthy_column _ _).
  - injection H as <-. cbn. repeat split; eauto.
  - ComparatorProps.bind_inv H. injection H as <-. cbn. repeat split; eauto.
Qed.

Lemma winners_are_extremal_witness :
  exists c,
    compare ComparatorProps.one_sided = Ret (Some c) /\
    exists w, get (winner c) "fps" = Some w /\ is_highest (fps (perf c)) w.
Proof.
  eexists. split; [vm_compute; reflexivity|].
  refine (proj1 (proj2 (proj2 (proj2 (proj2 (proj2
            (@winners_are_extremal ComparatorProps.one_sided _ _)))))) ).
  vm_compute. reflexivity.
Defined.

(** X17: for two loaded runs, the [better_model] of the FPS improvement
    is the FPS winner and the [better_model] of the inference
    improvement is the inference winner, ties going to the first-loaded
    model in both. *)
Theorem better_model_is_winner (A B : string) (a b : run) (c : comparison) :
  A <> B ->
  compare (load_json_log b B (load_json_log a A [])) = Ret (Some c) ->
  exists fi ii,
    fps_improvement (perf c) = Some fi /\
    get (winner c) "fps" = Some (better_model fi) /\
    inference_improvement (perf c) = Some ii /\
    get (winner c) "inference" = Some (better_model ii).
Proof.
  intros Hne. rewrite ComparatorProps.load_two by assumption.
  unfold compare. cbn [length Nat.ltb Nat.leb map fst snd column].
  unfold max_key, min_key, best_key. cbn [bind fold_left fst snd].
  unfold _calculate_improvement, truediv. intro H.
  destruct (Qeq_bool (get_default _ "avg_fps" 0) 0); [discriminate H|].
  cbn [bind] in H.
  destruct (Qeq_bool (get_default _ "avg_inference_ms" 0) 0); [discriminate H|].
  cbn [bind] in H.
  destruct (truthy_column _ _); cbn [bind] in H; injection H as <-;
    do 2 eexists;
    cbn [perf winner fps_improvement inference_improvement better_model get
         String.eqb Ascii.eqb Bool.eqb];
    (split; [reflexivity|]); (split; [|split; [reflexivity|]]);
    match goal with |- context [Qltb ?x ?y] => destruct (Qltb x y) end;
    reflexivity.
Qed.

Lemma better_model_is_winner_witness :
  exists c fi,
    compare ComparatorProps.fast_then_light = Ret (Some c) /\
    fps_improvement (perf c) = Some fi /\
    get (winner c) "fps" = Some (better_model fi).
Proof.
  assert (Hne : "yolov8"%string <> "yolov11"%string) by discriminate.
  eexists.
  assert (Hc : compare ComparatorProps.fast_then_light = Ret (Some _))
    by (vm_compute; reflexivity).
  destruct (@better_model_is_winner "yolov8" "yolov11"
              (mk_run (Some ComparatorProps.run_fast))
              (mk_run (Some ComparatorProps.run_light)) _ Hne Hc)
    as (fi & ii & H1 & H2 & _).
  exists fi. repeat split; assumption.
Defined.

Lemma Qabs_ratio (d a : Q) : 0 < a -> Qabs (d / a * 100) == Qabs d / a * 100.
Proof.
  intro Ha. unfold Qdiv. rewrite !Qabs_Qmult.
  rewrite (Qabs_pos (/ a)) by (apply Qlt_le_weak, Qinv_lt_0_compat, Ha).
  rewrite (Qabs_pos 100) by discriminate. reflexivity.
Qed.

Lemma pct_sign (d a : Q) : 0 < a -> (0 < d / a * 100 <-> 0 < d).
Proof.
  intro Ha. split; intro H.
  - apply (Qdiv_pos_iff d Ha).
    setoid_replace (d / a) with (d / a * 100 / 100)
      by (field; intro Z; rewrite Z in Ha; exact (Qlt_irrefl _ Ha)).
    apply (@Qdiv_pos_iff (d / a * 100) 100); [reflexivity|exact H].
  - apply Qmult_lt_0_compat; [|reflexivity].
    now apply (Qdiv_pos_iff d Ha).
Qed.

(** X18: for a positive baseline the improvement entry has a percentage
    that is never negative, namely |other - baseline| / baseline * 100.
    It is labelled "improvement" with the second-loaded model as better
    exactly when the second-loaded value is strictly better (higher, or
    lower for a lower-is-better metric); otherwise, equal values
    included, it is labelled "regression" with the first-loaded model as
    better. *)
Theorem improvement_label (A B : string) (baseline other : Q)
        (lower_is_better : bool) :
  0 < baseline ->
  exists i,
    _calculate_improvement [(A, baseline); (B, other)] lower_is_better
      = Ret (Some i) /\
    0 <= percentage i /\
    percentage i == Qabs (other - baseline) / baseline * 100 /\
    ((if lower_is_better then other < baseline else baseline < other) ->
     direction i = "improvement"%string /\ better_model i = B) /\
    (~ (if lower_is_better then other < baseline else baseline < other) ->
     direction i = "regression"%string /\ better_model i = A).
Proof.
  intro Hb.
  assert (Hnz : ~ baseline == 0)
    by (intro Z; rewrite Z in Hb; exact (Qlt_irrefl _ Hb)).
  eexists. split; [apply ComparatorProps.improvement_two; exact Hnz|].
  cbn [percentage direction better_model].
  split; [apply Qabs_nonneg|]. split.
  - destruct lower_is_better; rewrite Qabs_ratio by assumption; [|reflexivity].
    now rewrite (Qabs_Qminus baseline other).
  - destruct lower_is_better.
    + destruct (Qltb other baseline) eqn:E.
      * apply Qltb_iff in E. split; [|tauto]. intros _.
        rewrite (proj2 (Qltb_iff _ _)); [auto|].
        apply pct_sign; [assumption|]. now apply FpsCallProps.elapsed_pos.
      * apply Qltb_false_iff in E. split; [tauto|]. intros _.
        rewrite (proj2 (Qltb_false_iff _ _)); [auto|].
        intro P. apply E. apply pct_sign in P; [|assumption].
        now apply FpsCallProps.elapsed_pos.
    + destruct (Qltb baseline other) eqn:E.
      * apply Qltb_iff in E. split; [|tauto]. intros _.
        rewrite (proj2 (Qltb_iff _ _)); [auto|].
        apply pct_sign; [assumption|]. now apply FpsCallProps.elapsed_pos.
      * apply Qltb_false_iff in E. split; [tauto|]. intros _.
        rewrite (proj2 (Qltb_false_iff _ _)); [auto|].
        intro P. apply E. apply pct_sign in P; [|assumption].
        now apply FpsCallProps.elapsed_pos.
Qed.

Lemma improvement_label_witness :
  exists i,
    _calculate_improvement [("a"%string, 50); ("b"%string, 50)] true = Ret (Some i) /\
    direction i = "regression"%string /\ better_model i = "a"%string /\
    percentage i == 0.
Proof.
  destruct (@improvement_label "a" "b" 50 50 true) as (i & Hi & _ & Hp & _ & Hr).
  - reflexivity.
  - exists i. split; [exact Hi|].
    destruct Hr as [Hd Hm]; [discriminate|].
    repeat split; try assumption. rewrite Hp. reflexivity.
Defined.

Lemma tally_total (A B : string) (winner : dict string) :
  A <> B ->
  Forall (fun cw => snd cw = A \/ snd cw = B) winner ->
  (ComparatorProps.tally A winner + ComparatorProps.tally B winner
   = length winner)%nat.
Proof.
  intros Hne H. unfold ComparatorProps.tally.
  induction H as [|[cat w] winner [Hw|Hw] _ IH]; simpl in *; [reflexivity| |];
    subst w; rewrite String.eqb_refl.
  - rewrite (proj2 (String.eqb_neq A B) Hne). simpl. lia.
  - rewrite (proj2 (String.eqb_neq B A) (not_eq_sym Hne)). simpl. lia.
Qed.

Lemma highest_of_two (A B w : string) (x y : Q) :
  is_highest [(A, x); (B, y)] w -> w = A \/ w = B.
Proof.
  intros (v & [E|[E|[]]] & _); injection E as <- _; auto.
Qed.

Lemma lowest_of_two (A B w : string) (x y : Q) :
  is_lowest [(A, x); (B, y)] w -> w = A \/ w = B.
Proof.
  intros (v & [E|[E|[]]] & _); injection E as <- _; auto.
Qed.

(** X19: in the report of a comparison of two runs every category is
    counted for exactly one of the two models: the two win counts add up
    to the number of categories, which is 5 when a temperature comparison
    was made and 4 otherwise. *)
Theorem every_category_counts_once (A B : string) (a b : run)
        (c : comparison) (r : assessment) :
  A <> B ->
  compare (load_json_log b B (load_json_log a A [])) = Ret (Some c) ->
  print_comparison c = Ret r ->
  exists wa wb,
    wins r = [(A, wa); (B, wb)] /\
    (wa + wb = length (winner c))%nat /\
    length (winner c) =
      match temperature (sys c) with
      | Some _ => 5%nat
      | None => 4%nat
      end.
Proof.
  intros Hne Hc Hr.
  assert (Hm : models c = [A; B] /\
               Forall (fun cw => snd cw = A \/ snd cw = B) (winner c) /\
               length (winner c) =
                 match temperature (sys c) with Some _ => 5%nat | None => 4%nat end).
  { clear Hr. rewrite ComparatorProps.load_two in Hc by assumption.
    unfold compare in Hc.
    cbn [length Nat.ltb Nat.leb map fst snd column keys] in Hc.
    ComparatorProps.bind_inv Hc.
    match goal with
    | E1 : max_key _ = Ret _, E2 : min_key [(_, get_default _ "avg_inference_ms" _); _] = Ret _,
      E3 : min_key [(_, get_default _ "avg_cpu" _); _] = Ret _,
      E4 : min_key [(_, get_default _ "avg_memory" _); _] = Ret _ |- _ =>
        apply max_key_highest, highest_of_two in E1;
        apply min_key_lowest, lowest_of_two in E2;
        apply min_key_lowest, lowest_of_two in E3;
        apply min_key_lowest, lowest_of_two in E4
    end.
    destruct (truthy_column _ _) as [|kv td] eqn:T.
    - injection Hc as <-. cbn. split; [reflexivity|]. split; [|reflexivity].
      repeat (apply Forall_cons; [assumption|]). apply Forall_nil.
    - ComparatorProps.bind_inv Hc. injection Hc as <-. cbn.
      split; [reflexivity|]. split; [|reflexivity].
      repeat (apply Forall_cons; [assumption|]).
      apply Forall_cons; [|apply Forall_nil]. cbn.
      match goal with E : min_key (kv :: td) = Ret ?w |- _ =>
        apply min_key_lowest in E; destruct E as (v & Hin & _);
        rewrite <- T in Hin;
        apply ComparatorProps.truthy_column_In in Hin;
        destruct Hin as (s' & [E'|[E'|[]]] & _); injection E' as <- _; auto
      end. }
  destruct Hm as (Hm & Hall & Hlen).
  unfold print_comparison in Hr.
  rewrite (ComparatorProps.count_wins_two Hne c Hm) in Hr.
  ComparatorProps.bind_inv Hr. injection Hr as <-. cbn [wins].
  do 2 eexists. split; [reflexivity|]. split; [|exact Hlen].
  now apply tally_total.
Qed.

Lemma every_category_counts_once_witness :
  exists c r wa wb,
    compare ComparatorProps.one_sided = Ret (Some c) /\
    print_comparison c = Ret r /\
    wins r = [("yolov8"%string, wa); ("yolov11"%string, wb)] /\
    (wa + wb = 5)%nat.
Proof.
  edestruct (@every_category_counts_once "yolov8" "yolov11"
               (mk_run (Some ComparatorProps.run_hot))
               (mk_run (Some ComparatorProps.run_plain)))
    as (wa & wb & Hw & Hs & _).
  - discriminate.
  - vm_compute. reflexivity.
  - vm_compute. reflexivity.
  - do 2 eexists. exists wa, wb.
    split; [vm_compute; reflexivity|]. split; [vm_compute; reflexivity|].
    split; [exact Hw|exact Hs].
Defined.

End ComparatorMoreProps.

(** ** find_latest_logs and the automatic mode *)

Module LatestLogsProps.

Import LatestLogs.




End LatestLogsProps.

(** ** From a short benchmark to the comparator *)

Module PipelineProps.

Import ImageBenchmark.



End PipelineProps.
